(** * Bible Data Processing Tool (app.py): model and properties

    The program is a Streamlit page with three helper functions,
    [process_bible_data], [create_download_content] and [call_ai_api], and an
    inline upload step that reads a TSV file through pandas.  This file embeds
    them over a small model of the Python objects they touch:

    - immutable scalars ([None], [bool], [int], [str]) are values;
    - lists and dicts are objects in a store, reached through references, so
      that aliasing and in-place updates are visible;
    - a call is a state transformer over the store that either returns a value
      or raises.

    A [str] is a sequence of code points below 256, held in a [string].
    Floats are not modelled; resource exhaustion (memory, recursion depth) is
    not modelled either. *)

From Stdlib Require Import ZArith Ascii String List Lia Bool.
From stdpp Require Import base tactics option list strings pretty.

Local Open Scope string_scope.
Local Open Scope Z_scope.

(** ** Characters and the [str] methods the program uses *)

Module PyStr.

Definition LF : ascii := "010"%char.
Definition CR : ascii := "013"%char.
Definition TAB : ascii := "009"%char.
Definition SPACE : ascii := " "%char.
Definition DQUOTE : ascii := "034"%char.
Definition SQUOTE : ascii := "'"%char.
Definition BACKSLASH : ascii := "\"%char.

Definition code (c : ascii) : nat := nat_of_ascii c.

Definition in_range (lo hi : nat) (c : ascii) : bool :=
  (lo <=? code c)%nat && (code c <=? hi)%nat.

(** [str.lower] on one code point: A-Z, and the upper-case letters of the
    Latin-1 block (0xC0-0xDE but the multiplication sign 0xD7). *)
Definition lower_char (c : ascii) : ascii :=
  if in_range 65 90 c then ascii_of_nat (code c + 32)
  else if in_range 192 222 c && negb (code c =? 215)%nat
       then ascii_of_nat (code c + 32)
       else c.

Fixpoint lower (s : string) : string :=
  match s with
  | EmptyString => EmptyString
  | String c r => String (lower_char c) (lower r)
  end.

(** [s.split(sep)] for a one-character separator: always at least one
    piece, one more than the separators in [s]. *)
Fixpoint split (sep : ascii) (s : string) : list string :=
  match s with
  | EmptyString => [EmptyString]
  | String c r =>
      if Ascii.eqb c sep then EmptyString :: split sep r
      else match split sep r with
           | [] => [String c EmptyString]
           | p :: ps => String c p :: ps
           end
  end.

Fixpoint count_char (c : ascii) (s : string) : nat :=
  match s with
  | EmptyString => 0
  | String d r => (if Ascii.eqb d c then 1 else 0) + count_char c r
  end.

Fixpoint mem_char (c : ascii) (s : string) : bool :=
  match s with
  | EmptyString => false
  | String d r => Ascii.eqb d c || mem_char c r
  end.

Fixpoint join (sep : string) (parts : list string) : string :=
  match parts with
  | [] => EmptyString
  | [p] => p
  | p :: ps => p ++ sep ++ join sep ps
  end.

(** [s.endswith(suffix)] *)
Definition endswith (s suffix : string) : bool :=
  let n := String.length s in
  let k := String.length suffix in
  (k <=? n)%nat && String.eqb (substring (n - k) k s) suffix.

Definition hex_digit (n : nat) : ascii :=
  nth n ["0"; "1"; "2"; "3"; "4"; "5"; "6"; "7"; "8"; "9";
         "a"; "b"; "c"; "d"; "e"; "f"]%char "0"%char.

(** [str.isprintable] below 256: the ASCII graphic characters and space,
    and the Latin-1 block but its controls (0x80-0x9F), the no-break space
    (0xA0) and the soft hyphen (0xAD). *)
Definition isprintable (c : ascii) : bool :=
  in_range 32 126 c || in_range 161 172 c || in_range 174 255 c.

(** One character of [repr(s)], [quote] being the delimiter chosen. *)
Definition repr_char (quote c : ascii) : string :=
  if Ascii.eqb c quote || Ascii.eqb c BACKSLASH
  then String BACKSLASH (String c EmptyString)
  else if Ascii.eqb c TAB then "\t"
  else if Ascii.eqb c LF then "\n"
  else if Ascii.eqb c CR then "\r"
  else if isprintable c then String c EmptyString
  else String BACKSLASH
         (String "x" (String (hex_digit (code c / 16))
                        (String (hex_digit (code c mod 16)) EmptyString))).

Fixpoint repr_body (quote : ascii) (s : string) : string :=
  match s with
  | EmptyString => EmptyString
  | String c r => repr_char quote c ++ repr_body quote r
  end.

(** [repr(s)]: single quotes, unless [s] has a single quote and no double
    quote. *)
Definition repr (s : string) : string :=
  let quote :=
    if mem_char SQUOTE s && negb (mem_char DQUOTE s) then DQUOTE else SQUOTE in
  String quote (repr_body quote s ++ String quote EmptyString).

End PyStr.

(** ** Values, objects and the store *)

(** Addresses of the store. *)
Abbreviation loc := nat (only parsing).

Inductive val : Type :=
| VNone
| VBool (b : bool)
| VInt (n : Z)
| VStr (s : string)
| VRef (l : loc).

(** A dict keeps its entries in insertion order; every dict of this program is
    keyed by strings. *)
Inductive obj : Type :=
| OList (items : list val)
| ODict (entries : list (string * val)).

(** An outgoing HTTP request to an AI provider. *)
Record request : Type := { req_url : string; req_body : string }.

Record world : Type := { heap : list obj; requests : list request }.

Definition set_heap (h : list obj) (w : world) : world :=
  {| heap := h; requests := requests w |}.

#[global] Instance val_eq_dec : EqDecision val.
Proof. solve_decision. Defined.

#[global] Instance obj_eq_dec : EqDecision obj.
Proof. solve_decision. Defined.

(** ** Calls: store passing with exceptions *)

Inductive exn : Type :=
| AttributeError
| TypeError
| ValueError
| UnicodeDecodeError
| EmptyDataError.

(** A call returns, raises, or leaves the part of pandas and of the codecs
    that this file models ([Beyond]: floats, missing values, quoted fields,
    text outside ASCII in an upload). *)
Inductive outcome (A : Type) : Type :=
| Ok (a : A)
| Raise (e : exn)
| Beyond.
Arguments Ok {A} a.
Arguments Raise {A} e.
Arguments Beyond {A}.

Definition M (A : Type) : Type := world -> outcome A * world.

#[global] Instance M_ret : MRet M := fun A a w => (Ok a, w).

#[global] Instance M_bind : MBind M := fun A B f m w =>
  match m w with
  | (Ok a, w') => f a w'
  | (Raise e, w') => (Raise e, w')
  | (Beyond, w') => (Beyond, w')
  end.

Definition raise {A : Type} (e : exn) : M A := fun w => (Raise e, w).

Definition lift {A : Type} (r : outcome A) : M A := fun w => (r, w).

Definition get_world : M world := fun w => (Ok w, w).

(** A new object gets the next free address. *)
Definition alloc (o : obj) : M val := fun w =>
  (Ok (VRef (length (heap w))), set_heap (heap w ++ [o]) w).

Definition store (l : loc) (o : obj) : M unit := fun w =>
  (Ok tt, set_heap (<[l := o]> (heap w)) w).

Definition deref (h : list obj) (v : val) : option obj :=
  match v with
  | VRef l => h !! l
  | _ => None
  end.

(** ** Built-ins over the store *)

Module Py.

(** [isinstance(v, list)] *)
Definition is_list (h : list obj) (v : val) : bool :=
  match deref h v with
  | Some (OList _) => true
  | _ => false
  end.

Definition is_dict (h : list obj) (v : val) : bool :=
  match deref h v with
  | Some (ODict _) => true
  | _ => false
  end.

(** [repr(v)].  The interpreter keeps the containers whose [repr] is under
    way ([active]) and prints a container met again inside itself as
    [[...]] or [{...}].  [fuel] bounds the nesting depth; [None] only means
    that it ran out.  A reference to no object, which no running program
    holds, is printed as a placeholder. *)
Fixpoint repr_fuel (fuel : nat) (active : list loc) (h : list obj) (v : val)
  : option string :=
  match v with
  | VNone => Some "None"
  | VBool true => Some "True"
  | VBool false => Some "False"
  | VInt n => Some (pretty n)
  | VStr s => Some (PyStr.repr s)
  | VRef l =>
      match h !! l with
      | None => Some "<unbound>"
      | Some o =>
          if bool_decide (l ∈ active) then
            Some (match o with OList _ => "[...]" | ODict _ => "{...}" end)
          else
            match fuel with
            | O => None
            | S f =>
                match o with
                | OList items =>
                    parts ← mapM (repr_fuel f (l :: active) h) items;
                    Some ("[" ++ PyStr.join ", " parts ++ "]")
                | ODict entries =>
                    parts ← mapM (fun kv =>
                                    r ← repr_fuel f (l :: active) h kv.2;
                                    Some (PyStr.repr kv.1 ++ ": " ++ r))
                                 entries;
                    Some ("{" ++ PyStr.join ", " parts ++ "}")
                end
            end
      end
  end.

(** A nesting chain never repeats a container, so one level per object of
    the store is enough. *)
Definition repr (h : list obj) (v : val) : string :=
  default EmptyString (repr_fuel (S (length h)) [] h v).

(** [str(v)]: a [str] is itself, everything else goes through [repr]. *)
Definition str (h : list obj) (v : val) : string :=
  match v with
  | VStr s => s
  | _ => repr h v
  end.

(** [len(v)] *)
Definition len (v : val) : M Z := fun w =>
  match v with
  | VStr s => (Ok (Z.of_nat (String.length s)), w)
  | VRef l =>
      match heap w !! l with
      | Some (OList items) => (Ok (Z.of_nat (length items)), w)
      | Some (ODict entries) => (Ok (Z.of_nat (length entries)), w)
      | None => (Raise TypeError, w)
      end
  | _ => (Raise TypeError, w)
  end.

Fixpoint assoc (k : string) (entries : list (string * val)) : option val :=
  match entries with
  | [] => None
  | (k', v) :: rest => if String.eqb k' k then Some v else assoc k rest
  end.

(** [d[k] = v] on the entries of a dict: an existing key keeps its place. *)
Fixpoint assoc_set (k : string) (v : val) (entries : list (string * val))
  : list (string * val) :=
  match entries with
  | [] => [(k, v)]
  | (k', v') :: rest =>
      if String.eqb k' k then (k, v) :: rest
      else (k', v') :: assoc_set k v rest
  end.

Definition lookup_or (d : val) (k : string) (dflt : val) : M val := fun w =>
  match deref (heap w) d with
  | Some (ODict entries) =>
      (Ok (match assoc k entries with Some v => v | None => dflt end), w)
  | _ => (Raise AttributeError, w)
  end.

(** [d.get(k, default)]: the method is looked up first (an object that is
    no dict has none), then the default is evaluated, then the key is
    searched. *)
Definition get (d : val) (k : string) (default : M val) : M val :=
  w ← get_world;
  if is_dict (heap w) d then dflt ← default; lookup_or d k dflt
  else raise AttributeError.

(** [d[k] = v] *)
Definition setitem (d : val) (k : string) (v : val) : M unit := fun w =>
  match d with
  | VRef l =>
      match heap w !! l with
      | Some (ODict entries) => store l (ODict (assoc_set k v entries)) w
      | _ => (Raise TypeError, w)
      end
  | _ => (Raise TypeError, w)
  end.

(** [d[k]], read-only view used to inspect results. *)
Definition getitem (h : list obj) (d : val) (k : string) : option val :=
  match deref h d with
  | Some (ODict entries) => assoc k entries
  | _ => None
  end.

Definition items (h : list obj) (v : val) : option (list val) :=
  match deref h v with
  | Some (OList xs) => Some xs
  | _ => None
  end.

End Py.

(** ** The helper functions of app.py *)

Definition MODE_ANALYSIS : string := "Translation Analysis".
Definition MODE_QUALITY : string := "Quality Check".

(** [len(data) if isinstance(data, list) else len(str(data).split('\n'))] *)
Definition total_entries (data : val) : M Z :=
  w ← get_world;
  if Py.is_list (heap w) data then Py.len data
  else mret (Z.of_nat (length (PyStr.split PyStr.LF (Py.str (heap w) data)))).

Definition process_bible_data (data : val) (mode : string) (params : val) : M val :=
  total ← total_entries data;
  statistics ← alloc (ODict [("total_entries", VInt total);
                             ("processing_mode", VStr mode)]);
  result ← alloc (ODict [("summary", VStr ("Processed data using " ++ mode ++ " mode"));
                         ("processed_data", data);
                         ("statistics", statistics)]);
  (if String.eqb mode MODE_ANALYSIS then
     source ← Py.get params "source_lang" (mret (VStr "Unknown"));
     target ← Py.get params "target_lang" (mret (VStr "Unknown"));
     kinds ← Py.get params "analysis_type" (alloc (OList []));
     analysis ← alloc (ODict [("source_language", source);
                              ("target_language", target);
                              ("analysis_types", kinds)]);
     Py.setitem result "analysis" analysis
   else if String.eqb mode MODE_QUALITY then
     checks ← Py.get params "check_types" (alloc (OList []));
     report ← alloc (ODict [("checks_performed", checks);
                            ("issues_found", VInt 0);
                            ("quality_score", VInt 95)]);
     Py.setitem result "quality_report" report
   else mret tt);;
  mret result.

(** The two provider branches are [pass]: the request code is commented out. *)
Definition call_ai_api (content prompt api_provider : string)
    (api_key : option string) : M string :=
  (if String.eqb api_provider "OpenAI" then mret tt
   else if String.eqb api_provider "Anthropic" then mret tt
   else mret tt);;
  mret "AI processing result placeholder".

(** ** json.dumps(data, indent=2) *)

Module Json.

Definition hex2 (c : ascii) : string :=
  String (PyStr.hex_digit (PyStr.code c / 16))
    (String (PyStr.hex_digit (PyStr.code c mod 16)) EmptyString).

(** The default encoder keeps printable ASCII and escapes the rest
    ([ensure_ascii] is on). *)
Definition escape_char (c : ascii) : string :=
  if Ascii.eqb c PyStr.DQUOTE then String PyStr.BACKSLASH (String c EmptyString)
  else if Ascii.eqb c PyStr.BACKSLASH then "\\"
  else if Ascii.eqb c PyStr.LF then "\n"
  else if Ascii.eqb c PyStr.CR then "\r"
  else if Ascii.eqb c PyStr.TAB then "\t"
  else if (PyStr.code c =? 8)%nat then "\b"
  else if (PyStr.code c =? 12)%nat then "\f"
  else if PyStr.in_range 32 126 c then String c EmptyString
  else "\u00" ++ hex2 c.

Fixpoint escape (s : string) : string :=
  match s with
  | EmptyString => EmptyString
  | String c r => escape_char c ++ escape r
  end.

Definition encode_string (s : string) : string :=
  String PyStr.DQUOTE (escape s ++ String PyStr.DQUOTE EmptyString).

Fixpoint spaces (n : nat) : string :=
  match n with
  | O => EmptyString
  | S k => String PyStr.SPACE (spaces k)
  end.

Definition newline_indent (indent level : nat) : string :=
  String PyStr.LF (spaces (indent * level)).

(** Encode the members of a container from left to right; the first one
    that raises ends the call. *)
Fixpoint traverse {A : Type} (f : A -> option (outcome string)) (xs : list A)
  : option (outcome (list string)) :=
  match xs with
  | [] => Some (Ok [])
  | x :: rest =>
      match f x with
      | None => None
      | Some (Ok s) =>
          match traverse f rest with
          | Some (Ok ss) => Some (Ok (s :: ss))
          | r => r
          end
      | Some (Raise e) => Some (Raise e)
      | Some Beyond => Some Beyond
      end
  end.

Definition wrap (opening closing : string) (indent level : nat)
    (parts : option (outcome (list string))) : option (outcome string) :=
  match parts with
  | Some (Ok ss) =>
      Some (Ok (opening ++ newline_indent indent (S level)
                  ++ PyStr.join ("," ++ newline_indent indent (S level)) ss
                  ++ newline_indent indent level ++ closing))
  | Some (Raise e) => Some (Raise e)
  | Some Beyond => Some Beyond
  | None => None
  end.

(** The encoder keeps the containers being written ([active]) and raises
    ValueError on a circular reference; an empty container is written
    before that check.  [None] only means that [fuel] ran out. *)
Fixpoint dumps_fuel (fuel : nat) (active : list loc) (indent level : nat)
    (h : list obj) (v : val) : option (outcome string) :=
  match v with
  | VNone => Some (Ok "null")
  | VBool true => Some (Ok "true")
  | VBool false => Some (Ok "false")
  | VInt n => Some (Ok (pretty n))
  | VStr s => Some (Ok (encode_string s))
  | VRef l =>
      match h !! l with
      | None => Some (Raise TypeError)
      | Some (OList []) => Some (Ok "[]")
      | Some (ODict []) => Some (Ok "{}")
      | Some o =>
          if bool_decide (l ∈ active) then Some (Raise ValueError)
          else
            match fuel with
            | O => None
            | S f =>
                match o with
                | OList items =>
                    wrap "[" "]" indent level
                      (traverse (dumps_fuel f (l :: active) indent (S level) h) items)
                | ODict entries =>
                    wrap "{" "}" indent level
                      (traverse
                         (fun kv =>
                            match dumps_fuel f (l :: active) indent (S level) h kv.2 with
                            | Some (Ok s) => Some (Ok (encode_string kv.1 ++ ": " ++ s))
                            | r => r
                            end)
                         entries)
                end
            end
      end
  end.

Definition dumps (data : val) (indent : nat) : M string := fun w =>
  match dumps_fuel (S (length (heap w))) [] indent 0 (heap w) data with
  | Some r => (r, w)
  | None => (Beyond, w)
  end.

End Json.

(** ** pandas: [read_csv(sep='\t')], [to_dict('records')], [DataFrame(list)]
    and [to_csv(sep='\t', index=False)]

    The model covers tables of integers and text: no quoted field, no
    carriage return, no missing value, no float and no boolean column, as
    many fields in every row as in the header, and header names that are
    distinct and not empty.  Elsewhere the outcome is [Beyond].  A file is
    parsed in one piece (the chunks of very large files are not modelled) and
    lines end with a line feed, as on POSIX systems. *)

Module Pandas.

Record DataFrame : Type := { columns : list string; rows : list (list val) }.

(** The default missing-value markers of [read_csv]. *)
Definition NA_VALUES : list string :=
  [""; "#N/A"; "#N/A N/A"; "#NA"; "-1.#IND"; "-1.#QNAN"; "-NaN"; "-nan";
   "1.#IND"; "1.#QNAN"; "<NA>"; "N/A"; "NA"; "NULL"; "NaN"; "None"; "n/a";
   "nan"; "null"].

Definition is_na (cell : string) : bool := existsb (String.eqb cell) NA_VALUES.

Definition is_digit (c : ascii) : bool := PyStr.in_range 48 57 c.

Definition is_letter (c : ascii) : bool :=
  PyStr.in_range 65 90 c || PyStr.in_range 97 122 c.

Fixpoint all_digits (s : string) : bool :=
  match s with
  | EmptyString => true
  | String c r => is_digit c && all_digits r
  end.

Fixpoint digits_value (acc : Z) (s : string) : Z :=
  match s with
  | EmptyString => acc
  | String c r => digits_value (10 * acc + Z.of_nat (PyStr.code c - 48)) r
  end.

Definition natural_literal (s : string) : option Z :=
  match s with
  | EmptyString => None
  | _ => if all_digits s then Some (digits_value 0 s) else None
  end.

(** A decimal integer, with an optional minus sign, that fits int64. *)
Definition int_literal (s : string) : option Z :=
  n ← match s with
      | String c r =>
          if Ascii.eqb c "-" then Z.opp <$> natural_literal r
          else natural_literal s
      | EmptyString => None
      end;
  if (- 2 ^ 63 <=? n) && (n <? 2 ^ 63) then Some n else None.

(** Words that the numeric and boolean converters accept although they
    start with a letter. *)
Definition CONVERTED_WORDS : list string :=
  ["inf"; "infinity"; "nan"; "true"; "false"].

(** A cell that no converter takes: it starts with a letter and is no
    missing-value marker, infinity or boolean word. *)
Definition plain_text (cell : string) : bool :=
  match cell with
  | EmptyString => false
  | String c _ =>
      is_letter c && negb (is_na cell)
      && negb (existsb (String.eqb (PyStr.lower cell)) CONVERTED_WORDS)
  end.

Inductive kind : Type := KInt | KText.

(** Type of a column: int64 when every cell is an integer, text when some
    cell is plain text. *)
Definition infer (cells : list string) : option kind :=
  if existsb is_na cells then None
  else if forallb (fun c => bool_decide (is_Some (int_literal c))) cells then Some KInt
  else if existsb plain_text cells then Some KText
  else None.

Definition convert (k : kind) (cell : string) : val :=
  match k with
  | KInt => VInt (default 0 (int_literal cell))
  | KText => VStr cell
  end.

Fixpoint only_spaces (s : string) : bool :=
  match s with
  | EmptyString => true
  | String c r => Ascii.eqb c PyStr.SPACE && only_spaces r
  end.

Definition nonblank (line : string) : bool := negb (String.eqb line EmptyString).

(** Lines are cut at line feeds and fields at tabs; empty lines are
    skipped. *)
Definition tokenize (text : string) : option (list (list string)) :=
  if PyStr.mem_char PyStr.DQUOTE text || PyStr.mem_char PyStr.CR text then None
  else
    let lines := PyStr.split PyStr.LF text in
    if existsb (fun l => nonblank l && only_spaces l) lines then None
    else Some (map (PyStr.split PyStr.TAB) (filter (fun l => nonblank l = true) lines)).

Definition column (j : nat) (body : list (list string)) : list string :=
  map (fun r => nth j r EmptyString) body.

Definition read_csv (text : string) : outcome DataFrame :=
  match tokenize text with
  | None => Beyond
  | Some [] => Raise EmptyDataError
  | Some (header :: body) =>
      if existsb (String.eqb EmptyString) header || negb (bool_decide (NoDup header))
      then Beyond
      else if negb (forallb (fun r => (length r =? length header)%nat) body)
      then Beyond
      else
        match mapM (fun j => infer (column j body)) (seq 0 (length header)) with
        | None => Beyond
        | Some kinds =>
            Ok {| columns := header; rows := map (zip_with convert kinds) body |}
        end
  end.

Fixpoint alloc_all (os : list obj) : M (list val) :=
  match os with
  | [] => mret []
  | o :: rest => v ← alloc o; vs ← alloc_all rest; mret (v :: vs)
  end.

(** [df.to_dict('records')]: one dict per row, keyed by the column names. *)
Definition to_dict_records (df : DataFrame) : M val :=
  records ← alloc_all (map (fun row => ODict (zip (columns df) row)) (rows df));
  alloc (OList records).

Definition scalar (v : val) : bool :=
  match v with
  | VInt _ | VBool _ | VStr _ => true
  | _ => false
  end.

Definition record_at (h : list obj) (keys : list string) (v : val)
  : option (list val) :=
  match deref h v with
  | Some (ODict entries) =>
      if bool_decide (entries.*1 = keys) && forallb scalar entries.*2
      then Some entries.*2 else None
  | _ => None
  end.

(** [pd.DataFrame(data)] for a list of records: the columns are the keys of
    the records; an empty list gives a frame without columns. *)
Definition DataFrame_of (data : val) : M DataFrame := fun w =>
  match deref (heap w) data with
  | Some (OList []) => (Ok {| columns := []; rows := [] |}, w)
  | Some (OList (first :: rest)) =>
      match deref (heap w) first with
      | Some (ODict (e :: entries)) =>
          let keys := (e :: entries).*1 in
          match mapM (record_at (heap w) keys) (first :: rest) with
          | Some rs => (Ok {| columns := keys; rows := rs |}, w)
          | None => (Beyond, w)
          end
      | _ => (Beyond, w)
      end
  | _ => (Beyond, w)
  end.

(** A field that the writer emits as it is, without quotes. *)
Definition csv_plain (s : string) : bool :=
  nonblank s
  && negb (PyStr.mem_char PyStr.TAB s || PyStr.mem_char PyStr.LF s
           || PyStr.mem_char PyStr.CR s || PyStr.mem_char PyStr.DQUOTE s).

Definition cell_text (v : val) : option string :=
  match v with
  | VInt n => Some (pretty n)
  | VBool true => Some "True"
  | VBool false => Some "False"
  | VStr s => if csv_plain s then Some s else None
  | _ => None
  end.

Definition csv_line (fields : list string) : string :=
  PyStr.join (String PyStr.TAB EmptyString) fields ++ String PyStr.LF EmptyString.

Fixpoint csv_lines (table : list (list string)) : string :=
  match table with
  | [] => EmptyString
  | fields :: rest => csv_line fields ++ csv_lines rest
  end.

(** [df.to_csv(sep='\t', index=False)]: the header line, then one line per
    row.  A frame without columns has an empty header line. *)
Definition to_csv (df : DataFrame) : outcome string :=
  match columns df, rows df with
  | [], [] => Ok (csv_line [])
  | [], _ :: _ => Beyond
  | names, rs =>
      if forallb csv_plain names then
        match mapM (mapM cell_text) rs with
        | Some cells => Ok (csv_lines (names :: cells))
        | None => Beyond
        end
      else Beyond
  end.

End Pandas.

(** ** The upload step and the download content *)

Fixpoint is_ascii (s : string) : bool :=
  match s with
  | EmptyString => true
  | String c r => (PyStr.code c <? 128)%nat && is_ascii r
  end.

(** [bytes.decode('utf-8')]: ASCII bytes are their own code points. *)
Definition decode_utf8 (content : string) : outcome string :=
  if is_ascii content then Ok content else Beyond.

(** The upload step of the page: a file whose name ends in [.tsv] is read
    into a list of records, any other file is kept as text. *)
Definition read_uploaded_file (name content : string) : M val :=
  if PyStr.endswith name ".tsv" then
    text ← lift (decode_utf8 content);
    df ← lift (Pandas.read_csv text);
    Pandas.to_dict_records df
  else
    text ← lift (decode_utf8 content);
    mret (VStr text).

Definition create_download_content (data : val) (format_type : string) : M string :=
  w ← get_world;
  if String.eqb (PyStr.lower format_type) "json" then Json.dumps data 2
  else if String.eqb (PyStr.lower format_type) "tsv" && Py.is_list (heap w) data then
    df ← Pandas.DataFrame_of data;
    lift (Pandas.to_csv df)
  else mret (Py.str (heap w) data).

(** ** The page, from upload to download *)

(** The world at the start of a run of the page. *)
Definition empty_world : world := {| heap := []; requests := [] |}.

(** The page in Quality Check mode: the upload is read, the checks chosen in
    the multiselect reach [process_bible_data] under [check_types].  The page
    passes [locals()], which holds more names; [process_bible_data] reads
    [source_lang], [target_lang], [analysis_type] and [check_types] only. *)
Definition quality_check_run (name content : string) (checks : list string) : M val :=
  data ← read_uploaded_file name content;
  selected ← alloc (OList (VStr <$> checks));
  params ← alloc (ODict [("check_types", selected)]);
  process_bible_data data MODE_QUALITY params.

(** The download step of the page: the content is built from the
    [processed_data] entry of the result, in the chosen output format, or as
    [txt] when the mode has no output format. *)
Definition download (result : val) (output_format : option string) : M (option string) :=
  w ← get_world;
  match Py.getitem (heap w) result "processed_data" with
  | Some processed =>
      content ← create_download_content processed (default "txt" output_format);
      mret (Some content)
  | None => mret None
  end.

(** The page in Format Conversion mode, from the upload to the download. *)
Definition convert_page (name content input_format output_format : string)
  : M (option string) :=
  data ← read_uploaded_file name content;
  params ← alloc (ODict [("input_format", VStr input_format);
                         ("output_format", VStr output_format)]);
  result ← process_bible_data data "Format Conversion" params;
  download result (Some output_format).

(** ** The uploaded file, its preview and the processing step of the page *)

(** The upload widget hands over a file object: a name, the bytes and a read
    position. *)
Record uploaded_file : Type := { uf_name : string; uf_data : string; uf_pos : nat }.

(** [f.read()]: the bytes from the position on; the position moves to the
    end. *)
Definition file_read (f : uploaded_file) : string * uploaded_file :=
  (substring (uf_pos f) (String.length (uf_data f) - uf_pos f) (uf_data f),
   {| uf_name := uf_name f; uf_data := uf_data f;
      uf_pos := Nat.max (uf_pos f) (String.length (uf_data f)) |}).

(** [f.seek(p)] *)
Definition file_seek (f : uploaded_file) (p : nat) : uploaded_file :=
  {| uf_name := uf_name f; uf_data := uf_data f; uf_pos := p |}.

(** [df.head(n)] *)
Definition head (n : nat) (df : Pandas.DataFrame) : Pandas.DataFrame :=
  {| Pandas.columns := Pandas.columns df; Pandas.rows := take n (Pandas.rows df) |}.

(** [content[:1000] + "..." if len(content) > 1000 else content] *)
Definition preview_text (content : string) : string :=
  if (1000 <? String.length content)%nat then substring 0 1000 content ++ "..."
  else content.

Inductive preview_shown : Type :=
| ShownTable (df : Pandas.DataFrame)
| ShownText (text : string)
| ShownError (e : exn)
| NotShown.

(** The preview box.  A table is read by pandas from the file object itself,
    which leaves the position at the end; text is read and the position is
    then set back to the start.  An exception is caught and shown. *)
Definition preview_file (checked : bool) (f : uploaded_file)
  : outcome preview_shown * uploaded_file :=
  if checked then
    let '(bytes, f1) := file_read f in
    if PyStr.endswith (uf_name f) ".tsv" then
      match decode_utf8 bytes with
      | Ok text =>
          match Pandas.read_csv text with
          | Ok df => (Ok (ShownTable (head 10 df)), f1)
          | Raise e => (Ok (ShownError e), f1)
          | Beyond => (Beyond, f1)
          end
      | Raise e => (Ok (ShownError e), f1)
      | Beyond => (Beyond, f1)
      end
    else
      match decode_utf8 bytes with
      | Ok content => (Ok (ShownText (preview_text content)), file_seek f1 0)
      | Raise e => (Ok (ShownError e), f1)
      | Beyond => (Beyond, f1)
      end
  else (Ok NotShown, f).

(** [try: ... except Exception as e: ...] *)
Definition try_except {A : Type} (body : M A) (handler : exn -> M A) : M A := fun w =>
  match body w with
  | (Raise e, w') => handler e w'
  | r => r
  end.

(** The results expander: one section per entry of a dict, in the order of
    its entries; anything else is written as it is. *)
Definition shown_sections (result : val) : M (list (string * val) + val) :=
  w ← get_world;
  mret (match deref (heap w) result with
        | Some (ODict entries) => inl entries
        | _ => inr result
        end).

(** The script is run from its first line to its last on every run of the
    page, each time in a new namespace, and a statement binds its name when
    it is reached.  The top-level names of the script, each with the line of
    a statement that binds it.  ([convert_page] and [quality_check_run] above
    are the calls of the processing step in the order in which it makes
    them, without the lookup of the names.) *)
Definition script_bindings : list (nat * string) :=
  [ (1, "st"); (2, "pd"); (3, "io"); (4, "re");
    (5, "Dict"); (5, "List"); (5, "Optional"); (6, "requests"); (7, "json");
    (23, "api_provider"); (29, "api_key"); (35, "api_endpoint");
    (42, "processing_mode"); (48, "col1"); (48, "col2"); (53, "uploaded_file");
    (68, "df"); (71, "content"); (74, "e");
    (82, "source_lang"); (83, "target_lang"); (84, "analysis_type");
    (90, "input_format"); (91, "output_format"); (94, "check_types");
    (100, "custom_prompt");
    (113, "progress_bar"); (114, "status_text"); (121, "file_content");
    (123, "df"); (124, "data"); (126, "data"); (133, "processed_result");
    (144, "key"); (144, "value"); (158, "output_content"); (167, "e");
    (176, "process_bible_data"); (206, "create_download_content");
    (218, "call_ai_api") ]%nat.

(** Whether a statement above [line] binds [name]: when none does, reading
    the name at [line] raises NameError. *)
Definition bound_before (line : nat) (name : string) : bool :=
  existsb (fun b => (b.1 <? line)%nat && String.eqb b.2 name) script_bindings.

(** What the [except Exception] clause of the processing step catches. *)
Inductive caught : Type :=
| Raised (e : exn)
| NameError (name : string).

(** What the page shows after the button: the sections and the download
    (file name and content), or the error caught. *)
Inductive page_result : Type :=
| Completed (sections : list (string * val) + val) (file : option (string * string))
| Failed (c : caught).

(** The download section: [create_download_content] is looked up only when
    the result is a dict with a [processed_data] entry. *)
Definition download_section (name : string) (result : val)
    (output_format : option string) (sections : list (string * val) + val)
  : M page_result :=
  w ← get_world;
  match Py.getitem (heap w) result "processed_data" with
  | Some _ =>
      if bound_before 158 "create_download_content" then
        content ← download result output_format;
        mret (Completed sections ((fun c => ("processed_" ++ name, c)) <$> content))
      else mret (Failed (NameError "create_download_content"))
  | None => mret (Completed sections None)
  end.

(** The processing step of the page, from the click on the button on.
    [output_format] is the choice made in Format Conversion mode and [None]
    in the other modes, where the variable does not exist. *)
Definition start_processing (f : uploaded_file) (mode : string) (params : val)
    (output_format : option string) : M page_result * uploaded_file :=
  let '(bytes, f1) := file_read f in
  (try_except
     (data ← read_uploaded_file (uf_name f) bytes;
      if bound_before 133 "process_bible_data" then
        result ← process_bible_data data mode params;
        sections ← shown_sections result;
        download_section (uf_name f) result output_format sections
      else mret (Failed (NameError "process_bible_data")))
     (fun e => mret (Failed (Raised e))),
   f1).

(** * Vocabulary of the statements *)

(** ** What [process_bible_data] builds *)

(** The count stored under [total_entries]. *)
Definition entry_count (h : list obj) (data : val) : Z :=
  match Py.items h data with
  | Some xs => Z.of_nat (length xs)
  | None => Z.of_nat (S (PyStr.count_char PyStr.LF (Py.str h data)))
  end.

(** The two inner objects of a result, for a call made on store [h]. *)
Definition statistics_dict (h : list obj) (data : val) (mode : string) : obj :=
  ODict [("total_entries", VInt (entry_count h data)); ("processing_mode", VStr mode)].

Definition result_entries (h : list obj) (data : val) (mode : string)
  : list (string * val) :=
  [("summary", VStr ("Processed data using " ++ mode ++ " mode"));
   ("processed_data", data);
   ("statistics", VRef (length h))].

(** ** Frames

    [grows h0 rq w]: the store of [w] still starts with the objects of [h0],
    unchanged and at their addresses, and the requests sent are still [rq].
    [frame_ok h0 rq m Q]: the call [m] keeps that, whatever its outcome, and
    a value it returns satisfies [Q].  [fresh h0 v]: [v] is no reference to an
    object of [h0]. *)

Definition grows (h0 : list obj) (rq : list request) (w : world) : Prop :=
  h0 `prefix_of` heap w /\ requests w = rq.

Definition frame_ok {A : Type} (h0 : list obj) (rq : list request) (m : M A)
    (Q : A -> Prop) : Prop :=
  forall w, grows h0 rq w ->
            grows h0 rq (m w).2 /\ forall a, (m w).1 = Ok a -> Q a.

Definition fresh (h0 : list obj) (v : val) : Prop :=
  forall l, v = VRef l -> (length h0 <= l)%nat.

(** ** Closed stores

    A store is [closed] when its objects refer to objects of the store only,
    as every store of a running program is. *)

Definition val_in (h : list obj) (v : val) : Prop :=
  forall l, v = VRef l -> (l < length h)%nat.


(** ** Reading a result *)

(** What a reader of the result sees: the keys of the result and of its
    inner dicts, the values under them, and the items of the lists of
    checks and analysis types. *)
Definition keys (h : list obj) (v : option val) : option (list string) :=
  d ← v;
  match deref h d with
  | Some (ODict entries) => Some entries.*1
  | _ => None
  end.


Definition content (h : list obj) (v : option val) : option (val + list val) :=
  x ← v;
  Some (match Py.items h x with
        | Some xs => inr xs
        | None => inl x
        end).

Record report : Type := {
  rp_keys : option (list string);
  rp_summary : option val;
  rp_processed : option val;
  rp_statistics_keys : option (list string);
  rp_total : option val;
  rp_mode : option val;
  rp_quality_keys : option (list string);
  rp_checks : option (val + list val);
  rp_issues : option val;
  rp_score : option val;
  rp_analysis_keys : option (list string);
  rp_source : option val;
  rp_target : option val;
  rp_kinds : option (val + list val)
}.




(** ** Tables of the modelled kind *)

(** A field that can stand in a table of the modelled kind. *)
Definition field_ok (s : string) : bool :=
  is_ascii s && Pandas.csv_plain s && negb (Pandas.only_spaces s).

(** A cell of the modelled kind: an integer or plain text. *)
Definition cell_ok (c : string) : bool :=
  field_ok c && (Pandas.plain_text c || bool_decide (is_Some (Pandas.int_literal c))).

(** Rows that are not empty and hold fields of that kind. *)
Definition table_ok (table : list (list string)) : Prop :=
  Forall (fun row => row <> [] /\ Forall (fun c => field_ok c = true) row) table.

(** A header: at least one name, the names distinct. *)
Definition header_ok (names : list string) : Prop :=
  names <> [] /\ Forall (fun c => field_ok c = true) names /\ NoDup names.

(** Data rows as wide as the header. *)
Definition body_ok (width : nat) (rows : list (list string)) : Prop :=
  Forall (fun row => length row = width /\ Forall (fun c => cell_ok c = true) row) rows.

(** The line that the writer emits for a row, without its line feed. *)
Definition line_of (row : list string) : string :=
  PyStr.join (String PyStr.TAB EmptyString) row.

Definition int64 (n : Z) : Prop := - 2 ^ 63 <= n < 2 ^ 63.

(** The string starts with a digit. *)
Definition head_digit (s : string) : bool :=
  match s with
  | String c _ => Pandas.is_digit c
  | EmptyString => false
  end.

(** The text that [to_csv] writes for a cell read as kind [k] from [c]. *)
Definition render (k : Pandas.kind) (c : string) : string :=
  match k with
  | Pandas.KInt => pretty (default 0 (Pandas.int_literal c))
  | Pandas.KText => c
  end.

(** The store after [to_dict('records')]: one dict per row, then the list. *)
Definition with_records (h : list obj) (names : list string) (typed : list (list val))
  : list obj :=
  (h ++ ((fun row => ODict (zip names row)) <$> typed)
     ++ [OList (VRef <$> seq (length h) (length typed))])%list.

(** The records that a list of records holds, dict by dict. *)
Definition records_of (h : list obj) (v : val) : option (list (list (string * val))) :=
  items ← Py.items h v;
  mapM (fun r => match deref h r with
                 | Some (ODict entries) => Some entries
                 | _ => None
                 end) items.

(** ** Sample uploads *)

(** The columns that the specification requires. *)
Definition REQUIRED_COLUMNS : list string := ["Book"; "Chapter"; "Verse"; "Target Text"].

(** A header row and no data row. *)
Definition header_only_tsv : string := Pandas.csv_lines [REQUIRED_COLUMNS].

(** Two records with the same reference (Genesis 1:1). *)
Definition duplicate_tsv : string :=
  Pandas.csv_lines [["Book"; "Chapter"; "Verse"; "Target Text"];
                    ["Genesis"; "1"; "1"; "In the beginning"];
                    ["Genesis"; "1"; "1"; "Variant reading"]].

(** The chapter of the second row is no number, and there is no [Verse]
    column at all. *)
Definition malformed_tsv : string :=
  Pandas.csv_lines [["Book"; "Chapter"; "Target Text"];
                    ["Genesis"; "1"; "In the beginning"];
                    ["Genesis"; "one"; "Variant reading"]].

Definition LESS_THAN : ascii := "<"%char.

(** A record with an extra column, kept as metadata, whose value has a
    less-than sign. *)
Definition note_tsv : string :=
  Pandas.csv_lines [["Book"; "Chapter"; "Verse"; "Target Text"; "Note"];
                    ["Genesis"; "1"; "1"; "In the beginning"; "a<b"]].

(** ** Blank text and cells in written form *)

(** A text of line feeds only. *)
Fixpoint only_line_feeds (s : string) : bool :=
  match s with
  | EmptyString => true
  | String c r => Ascii.eqb c PyStr.LF && only_line_feeds r
  end.

(** A cell that [to_csv] writes as it was read: text, or an integer in the
    form in which [str] prints it. *)
Definition canonical (c : string) : bool :=
  match Pandas.int_literal c with
  | Some n => String.eqb (pretty n) c
  | None => true
  end.

(** * Properties *)

(** ** Strings *)

Lemma split_length c s : length (PyStr.split c s) = S (PyStr.count_char c s).
Proof.
  induction s as [|d r IH]; simpl; [reflexivity|].
  destruct (Ascii.eqb d c); simpl; [by rewrite IH|].
  destruct (PyStr.split c r); simpl in *; congruence.
Qed.

Lemma mem_char_app c s t :
  PyStr.mem_char c (s ++ t) = PyStr.mem_char c s || PyStr.mem_char c t.
Proof. induction s as [|d r IH]; simpl; [reflexivity|]. by rewrite IH, orb_assoc. Qed.

(** ** The store *)

Lemma deref_app h ext v o : deref h v = Some o -> deref (h ++ ext) v = Some o.
Proof. destruct v; simpl; try discriminate. apply lookup_app_l_Some. Qed.

Lemma is_dict_entries h v : Py.is_dict h v = true -> exists es, deref h v = Some (ODict es).
Proof.
  unfold Py.is_dict. destruct (deref h v) as [[|es]|]; try discriminate. eauto.
Qed.

Ltac run :=
  unfold mbind, M_bind, mret, M_ret, get_world, raise, lift, alloc, store, set_heap;
  simpl.

Lemma get_ret w d k v es :
  deref (heap w) d = Some (ODict es) ->
  Py.get d k (mret v) w = (Ok (default v (Py.assoc k es)), w).
Proof.
  intros H. unfold Py.get, Py.lookup_or, Py.is_dict. run. rewrite H. simpl.
  rewrite H. by destruct (Py.assoc k es).
Qed.

Lemma get_alloc w d k es :
  deref (heap w) d = Some (ODict es) ->
  Py.get d k (alloc (OList [])) w
  = (Ok (default (VRef (length (heap w))) (Py.assoc k es)),
     set_heap (heap w ++ [OList []]) w).
Proof.
  intros H. unfold Py.get, Py.lookup_or, Py.is_dict. run. rewrite H. simpl.
  rewrite (deref_app _ _ _ _ H). by destruct (Py.assoc k es).
Qed.

Lemma get_no_dict w d k dflt :
  Py.is_dict (heap w) d = false -> Py.get d k dflt w = (Raise AttributeError, w).
Proof. intros H. unfold Py.get. run. by rewrite H. Qed.

(** ** [process_bible_data] *)

Lemma total_entries_ok w data :
  total_entries data w = (Ok (entry_count (heap w) data), w).
Proof.
  unfold total_entries, entry_count, Py.is_list, Py.items. run.
  destruct (deref (heap w) data) as [[xs|es]|] eqn:E; simpl.
  - destruct data; simpl in E; try discriminate. unfold Py.len. by rewrite E.
  - by rewrite split_length.
  - by rewrite split_length.
Qed.

Lemma run_other w data mode params :
  String.eqb mode MODE_ANALYSIS = false ->
  String.eqb mode MODE_QUALITY = false ->
  process_bible_data data mode params w
  = (Ok (VRef (S (length (heap w)))),
     set_heap (heap w ++ [statistics_dict (heap w) data mode;
                          ODict (result_entries (heap w) data mode)]) w).
Proof.
  intros H1 H2. unfold process_bible_data. unfold mbind at 1, M_bind at 1.
  rewrite total_entries_ok. rewrite H1, H2. run.
  rewrite length_app, <- app_assoc. simpl. by rewrite Nat.add_1_r.
Qed.

Lemma run_quality w data params es :
  deref (heap w) params = Some (ODict es) ->
  process_bible_data data MODE_QUALITY params w
  = (Ok (VRef (S (length (heap w)))),
     set_heap (heap w ++ [statistics_dict (heap w) data MODE_QUALITY;
                          ODict (result_entries (heap w) data MODE_QUALITY
                                   ++ [("quality_report", VRef (3 + length (heap w)))]);
                          OList [];
                          ODict [("checks_performed",
                                  default (VRef (2 + length (heap w)))
                                          (Py.assoc "check_types" es));
                                 ("issues_found", VInt 0);
                                 ("quality_score", VInt 95)]]) w).
Proof.
  intros H. unfold process_bible_data. unfold mbind at 1, M_bind at 1.
  rewrite total_entries_ok.
  change (String.eqb MODE_QUALITY MODE_ANALYSIS) with false.
  change (String.eqb MODE_QUALITY MODE_QUALITY) with true. cbv iota.
  unfold mbind at 1, M_bind at 1. unfold alloc at 1.
  unfold mbind at 1, M_bind at 1. unfold alloc at 1.
  unfold mbind at 1, M_bind at 1. unfold mbind at 1, M_bind at 1.
  erewrite get_alloc; last first.
  { simpl. rewrite <- app_assoc. apply deref_app. exact H. }
  run. rewrite !length_app. simpl.
  unfold Py.setitem. simpl.
  replace (length (heap w) + 1)%nat with (S (length (heap w))) by lia.
  rewrite <- !app_assoc. simpl.
  rewrite (lookup_app_r (heap w)) by lia.
  replace (S (length (heap w)) - length (heap w))%nat with 1%nat by lia. simpl.
  run. do 2 f_equal.
  rewrite insert_app_r_alt by lia.
  replace (S (length (heap w)) - length (heap w))%nat with 1%nat by lia.
  unfold statistics_dict. simpl. repeat f_equal; lia.
Qed.

Lemma run_analysis w data params es :
  deref (heap w) params = Some (ODict es) ->
  process_bible_data data MODE_ANALYSIS params w
  = (Ok (VRef (S (length (heap w)))),
     set_heap (heap w ++ [statistics_dict (heap w) data MODE_ANALYSIS;
                          ODict (result_entries (heap w) data MODE_ANALYSIS
                                   ++ [("analysis", VRef (3 + length (heap w)))]);
                          OList [];
                          ODict [("source_language",
                                  default (VStr "Unknown") (Py.assoc "source_lang" es));
                                 ("target_language",
                                  default (VStr "Unknown") (Py.assoc "target_lang" es));
                                 ("analysis_types",
                                  default (VRef (2 + length (heap w)))
                                          (Py.assoc "analysis_type" es))]]) w).
Proof.
  intros H. unfold process_bible_data. unfold mbind at 1, M_bind at 1.
  rewrite total_entries_ok.
  change (String.eqb MODE_ANALYSIS MODE_ANALYSIS) with true. cbv iota.
  unfold mbind at 1, M_bind at 1. unfold alloc at 1.
  unfold mbind at 1, M_bind at 1. unfold alloc at 1.
  unfold mbind at 1, M_bind at 1. unfold mbind at 1, M_bind at 1.
  assert (H' : forall ext, deref ((heap w ++ ext)) params = Some (ODict es))
    by (intros; by apply deref_app).
  erewrite get_ret; last first.
  { simpl. rewrite <- app_assoc. apply H'. }
  unfold mbind at 1, M_bind at 1.
  erewrite get_ret; last first.
  { simpl. rewrite <- app_assoc. apply H'. }
  unfold mbind at 1, M_bind at 1.
  erewrite get_alloc; last first.
  { simpl. rewrite <- app_assoc. apply H'. }
  run. rewrite !length_app. simpl.
  unfold Py.setitem. simpl.
  replace (length (heap w) + 1)%nat with (S (length (heap w))) by lia.
  rewrite <- !app_assoc. simpl.
  rewrite (lookup_app_r (heap w)) by lia.
  replace (S (length (heap w)) - length (heap w))%nat with 1%nat by lia. simpl.
  run. do 2 f_equal.
  rewrite insert_app_r_alt by lia.
  replace (S (length (heap w)) - length (heap w))%nat with 1%nat by lia.
  unfold statistics_dict. simpl. repeat f_equal; lia.
Qed.

Lemma mode_cases (mode : string) :
  mode = MODE_ANALYSIS \/ mode = MODE_QUALITY
  \/ (String.eqb mode MODE_ANALYSIS = false /\ String.eqb mode MODE_QUALITY = false).
Proof.
  destruct (String.eqb_spec mode MODE_ANALYSIS); [by left|].
  destruct (String.eqb_spec mode MODE_QUALITY); [by right; left|].
  right; right. done.
Qed.

Lemma getitem_ext (h ext : list obj) (l k : nat) es key :
  l = (k + length h)%nat ->
  ext !! k = Some (ODict es) ->
  Py.getitem (h ++ ext) (VRef l) key = Py.assoc key es.
Proof.
  intros -> H. unfold Py.getitem. simpl.
  rewrite lookup_app_r by lia.
  replace (k + length h - length h)%nat with k by lia. by rewrite H.
Qed.

Ltac item_at k :=
  erewrite (getitem_ext _ _ _ k); cycle 1; [reflexivity | reflexivity | reflexivity].

(** C1. For every data value and mode, and every dict of parameters,
    [process_bible_data] returns a new dict whose [processed_data] entry is
    the data argument itself, whose [summary] names the mode, and whose
    [statistics] hold the mode and, under [total_entries], the length of the
    data when it is a list and otherwise the number of lines of [str(data)]
    (one more than its line feeds).  Nothing else happens: the store only
    grows by the new objects and no request is sent. *)
Theorem process_bible_data_summary (w : world) (data : val) (mode : string)
    (params : val) :
  Py.is_dict (heap w) params = true ->
  exists r st w',
    process_bible_data data mode params w = (Ok r, w')
    /\ Py.getitem (heap w') r "processed_data" = Some data
    /\ Py.getitem (heap w') r "summary"
       = Some (VStr ("Processed data using " ++ mode ++ " mode"))
    /\ Py.getitem (heap w') r "statistics" = Some st
    /\ Py.getitem (heap w') st "processing_mode" = Some (VStr mode)
    /\ Py.getitem (heap w') st "total_entries"
       = Some (VInt (match Py.items (heap w) data with
                     | Some xs => Z.of_nat (length xs)
                     | None =>
                         Z.of_nat (S (PyStr.count_char PyStr.LF (Py.str (heap w) data)))
                     end))
    /\ (exists ext : list obj, heap w' = (heap w ++ ext)%list)
    /\ requests w' = requests w.
Proof.
  intros Hd. destruct (is_dict_entries _ _ Hd) as [es He].
  assert (Hext : forall ext : list obj, exists e : list obj,
               (heap w ++ ext = heap w ++ e)%list) by (intros; eauto).
  destruct (mode_cases mode) as [->|[->|[H1 H2]]];
    [ rewrite (run_analysis _ _ _ _ He)
    | rewrite (run_quality _ _ _ _ He)
    | rewrite (run_other _ _ _ _ H1 H2) ];
    (eexists _, (VRef (length (heap w))), _; split; [reflexivity|];
     cbn [heap set_heap requests];
     repeat split;
     [ item_at 1%nat | item_at 1%nat | item_at 1%nat
     | item_at 0%nat | item_at 0%nat | apply Hext ]).
Qed.

(** ** What a call leaves untouched *)

Section Frame.
Context (h0 : list obj) (rq : list request).

Lemma frame_ret {A} (a : A) (Q : A -> Prop) : Q a -> frame_ok h0 rq (mret a) Q.
Proof. intros HQ w Hw. split; [exact Hw|]. simpl. by intros ? [= <-]. Qed.

Lemma frame_lift {A} (r : outcome A) : frame_ok h0 rq (lift r) (fun _ => True).
Proof. intros w Hw. by split. Qed.

Lemma frame_get_world : frame_ok h0 rq get_world (fun _ => True).
Proof. intros w Hw. by split. Qed.

Lemma frame_raise {A} e (Q : A -> Prop) : frame_ok h0 rq (raise e) Q.
Proof. intros w Hw. split; [exact Hw|]. simpl. discriminate. Qed.

Lemma frame_bind {A B} (m : M A) (f : A -> M B) (Q : A -> Prop) (R : B -> Prop) :
  frame_ok h0 rq m Q -> (forall a, Q a -> frame_ok h0 rq (f a) R) ->
  frame_ok h0 rq (m ≫= f) R.
Proof.
  intros Hm Hf w Hw. destruct (Hm w Hw) as [Hg Hq].
  unfold mbind, M_bind. destruct (m w) as [[a| |] w1]; simpl in *.
  - apply (Hf a); [by apply Hq | exact Hg].
  - split; [exact Hg | discriminate].
  - split; [exact Hg | discriminate].
Qed.

Lemma frame_alloc o : frame_ok h0 rq (alloc o) (fresh h0).
Proof.
  intros w [[ext Hext] Hrq]. split.
  - split; [|exact Hrq]. simpl. exists (ext ++ [o])%list.
    by rewrite Hext, app_assoc.
  - simpl. intros a [= <-] l [= <-]. rewrite Hext, length_app. lia.
Qed.

Lemma frame_len v : frame_ok h0 rq (Py.len v) (fun _ => True).
Proof.
  intros w Hw. unfold Py.len.
  destruct v as [| | | |l]; simpl; try by split.
  destruct (heap w !! l) as [[|]|]; by split.
Qed.

Lemma frame_total_entries data : frame_ok h0 rq (total_entries data) (fun _ => True).
Proof.
  unfold total_entries. eapply frame_bind; [apply frame_get_world|].
  intros w' _. destruct (Py.is_list (heap w') data).
  - apply frame_len.
  - by apply frame_ret.
Qed.

Lemma frame_lookup_or d k dflt : frame_ok h0 rq (Py.lookup_or d k dflt) (fun _ => True).
Proof.
  intros w Hw. unfold Py.lookup_or.
  destruct (deref (heap w) d) as [[|]|]; by split.
Qed.

Lemma frame_get d k (dflt : M val) Q :
  frame_ok h0 rq dflt Q -> frame_ok h0 rq (Py.get d k dflt) (fun _ => True).
Proof.
  intros Hd. unfold Py.get. eapply frame_bind; [apply frame_get_world|].
  intros w' _. destruct (Py.is_dict (heap w') d).
  - eapply frame_bind; [exact Hd|]. intros. apply frame_lookup_or.
  - apply frame_raise.
Qed.

(** An item assignment on an object that did not exist in [h0]. *)
Lemma frame_setitem d k v : fresh h0 d -> frame_ok h0 rq (Py.setitem d k v) (fun _ => True).
Proof.
  intros Hf w [[ext Hext] Hrq]. unfold Py.setitem.
  destruct d as [| | | |l]; simpl; try by (repeat split; [eexists|]; eauto).
  destruct (heap w !! l) as [[|es]|] eqn:E; simpl;
    try by (repeat split; [eexists|]; eauto).
  repeat split; [|exact Hrq]. rewrite Hext.
  rewrite insert_app_r_alt by (by apply Hf). by eexists.
Qed.

Lemma frame_process_bible_data data mode params :
  frame_ok h0 rq (process_bible_data data mode params) (fun _ => True).
Proof.
  unfold process_bible_data.
  eapply frame_bind; [apply frame_total_entries|]. intros total _.
  eapply frame_bind; [apply frame_alloc|]. intros statistics _.
  eapply frame_bind; [apply frame_alloc|]. intros result Hres.
  eapply frame_bind; [|intros; by apply frame_ret].
  destruct (String.eqb mode MODE_ANALYSIS); [|destruct (String.eqb mode MODE_QUALITY)].
  - eapply frame_bind; [by eapply (frame_get _ _ _ (fun _ => True)), frame_ret|]. intros source _.
    eapply frame_bind; [by eapply (frame_get _ _ _ (fun _ => True)), frame_ret|]. intros target _.
    eapply frame_bind; [eapply frame_get, frame_alloc|]. intros kinds _.
    eapply frame_bind; [apply frame_alloc|]. intros analysis _.
    by apply frame_setitem.
  - eapply frame_bind; [eapply frame_get, frame_alloc|]. intros checks _.
    eapply frame_bind; [apply frame_alloc|]. intros report _.
    by apply frame_setitem.
  - by apply frame_ret.
Qed.

End Frame.

(** C8. Whatever the data, the mode and the parameters, and whether the call
    returns or raises, [process_bible_data] leaves every object that existed
    before the call as it was: the store after the call is the store before
    it followed by new objects.  So the data argument reads the same list,
    with the same records, entry for entry and in the same order, after the
    call. *)
Theorem process_bible_data_keeps_input (w : world) (data : val) (mode : string)
    (params : val) :
  let w' := (process_bible_data data mode params w).2 in
  (exists ext : list obj, heap w' = (heap w ++ ext)%list)
  /\ (forall l o, heap w !! l = Some o -> heap w' !! l = Some o)
  /\ (forall items, Py.items (heap w) data = Some items ->
                    Py.items (heap w') data = Some items)
  /\ (forall records, records_of (heap w) data = Some records ->
                      records_of (heap w') data = Some records).
Proof.
  cbv zeta.
  destruct (frame_process_bible_data (heap w) (requests w) data mode params w)
    as [[[ext Hext] _] _]; [by split|].
  set (w' := (process_bible_data data mode params w).2) in *.
  split; [by exists ext|].
  assert (Hl : forall l o, heap w !! l = Some o -> heap w' !! l = Some o).
  { intros l o H. rewrite Hext. by apply lookup_app_l_Some. }
  split; [exact Hl|].
  assert (Hi : forall items, Py.items (heap w) data = Some items ->
                             Py.items (heap w') data = Some items).
  { intros items. unfold Py.items.
    destruct data as [| | | |l]; simpl; try discriminate.
    destruct (heap w !! l) as [o|] eqn:E; [|discriminate].
    intros Ho. by rewrite (Hl _ _ E). }
  split; [exact Hi|].
  intros records. unfold records_of.
  destruct (Py.items (heap w) data) as [items|] eqn:E; [|discriminate].
  rewrite (Hi items eq_refl). cbn [mbind option_bind].
  rewrite !mapM_Some. intros Hrec. eapply Forall2_impl; [exact Hrec|].
  intros r entries.
  destruct r as [| | | |l]; simpl; try discriminate.
  destruct (heap w !! l) as [o|] eqn:El; [|discriminate].
  by rewrite (Hl _ _ El).
Qed.

(** ** [repr] and [json.dumps] always finish

    The containers under way are distinct objects of the store, so the
    nesting depth never exceeds the number of objects. *)

Lemma active_bound (h : list obj) (active : list nat) :
  NoDup active -> (forall l, l ∈ active -> (l < length h)%nat) ->
  (length active <= length h)%nat.
Proof.
  intros Hnd Hlt.
  assert (Hsub : active ⊆+ seq 0 (length h)).
  { apply NoDup_submseteq; [exact Hnd|]. intros l Hl. apply elem_of_seq.
    specialize (Hlt l Hl). lia. }
  apply submseteq_length in Hsub. by rewrite length_seq in Hsub.
Qed.

Lemma repr_fuel_adequate (h : list obj) (fuel : nat) :
  forall (active : list nat) (v : val),
    NoDup active -> (forall l, l ∈ active -> (l < length h)%nat) ->
    (length h < fuel + length active)%nat ->
    is_Some (Py.repr_fuel fuel active h v).
Proof.
  induction fuel as [|f IH]; intros active v Hnd Hlt Hfuel.
  - pose proof (active_bound h active Hnd Hlt). simpl in Hfuel. lia.
  - destruct v as [|[|]| | |l]; simpl; try by eexists.
    destruct (h !! l) as [o|] eqn:E; [|by eexists].
    case_bool_decide as Hin; [by eexists|].
    assert (Hrec : forall v', is_Some (Py.repr_fuel f (l :: active) h v')).
    { intros v'. apply IH.
      - by constructor.
      - intros l' [->|Hl']%elem_of_cons; [by eapply lookup_lt_Some | by apply Hlt].
      - simpl. lia. }
    destruct o as [items|entries].
    + assert (Hm : is_Some (mapM (Py.repr_fuel f (l :: active) h) items)).
      { apply mapM_is_Some, Forall_forall. intros; apply Hrec. }
      destruct Hm as [parts ->]. by eexists.
    + match goal with |- is_Some (mapM ?g entries ≫= _) =>
        assert (Hm : is_Some (mapM g entries)) end.
      { apply mapM_is_Some, Forall_forall. intros [k v'] _. simpl.
        destruct (Hrec v') as [r ->]. by eexists. }
      destruct Hm as [parts ->]. by eexists.
Qed.

Lemma repr_total (h : list obj) (v : val) :
  Py.repr_fuel (S (length h)) [] h v = Some (Py.repr h v).
Proof.
  unfold Py.repr.
  destruct (repr_fuel_adequate h (S (length h)) [] v) as [s ->].
  - constructor.
  - intros l Hl. by apply elem_of_nil in Hl.
  - simpl. lia.
  - reflexivity.
Qed.

Lemma traverse_is_Some {A} (f : A -> option (outcome string)) (xs : list A) :
  (forall x, is_Some (f x)) -> is_Some (Json.traverse f xs).
Proof.
  intros Hf. induction xs as [|x xs [r IH]]; simpl; [by eexists|].
  destruct (Hf x) as [[s|e|] ->]; try by eexists.
  rewrite IH. destruct r; by eexists.
Qed.

Lemma wrap_is_Some opening closing indent level parts :
  is_Some parts -> is_Some (Json.wrap opening closing indent level parts).
Proof. intros [[ss|e|] ->]; by eexists. Qed.

Lemma dumps_fuel_adequate (h : list obj) (indent : nat) (fuel : nat) :
  forall (active : list nat) (level : nat) (v : val),
    NoDup active -> (forall l, l ∈ active -> (l < length h)%nat) ->
    (length h < fuel + length active)%nat ->
    is_Some (Json.dumps_fuel fuel active indent level h v).
Proof.
  induction fuel as [|f IH]; intros active level v Hnd Hlt Hfuel.
  - pose proof (active_bound h active Hnd Hlt). simpl in Hfuel. lia.
  - destruct v as [|[|]| | |l]; simpl; try by eexists.
    destruct (h !! l) as [o|] eqn:E; [|by eexists].
    assert (Hrec : l ∉ active -> forall lv v',
               is_Some (Json.dumps_fuel f (l :: active) indent lv h v')).
    { intros Hin lv v'. apply IH.
      - by constructor.
      - intros l' [->|Hl']%elem_of_cons; [by eapply lookup_lt_Some | by apply Hlt].
      - simpl. lia. }
    destruct o as [[|x items]|[|e entries]]; try by eexists.
    + case_bool_decide as Hin; [by eexists|].
      apply wrap_is_Some, traverse_is_Some. intros; by apply Hrec.
    + case_bool_decide as Hin; [by eexists|].
      apply wrap_is_Some, traverse_is_Some. intros [k v'].
      destruct (Hrec Hin (S level) v') as [[s|err|] Hs]; simpl in *;
        rewrite Hs; by eexists.
Qed.

(** [json.dumps] returns or raises; it never leaves the model. *)
Lemma dumps_total (data : val) (indent : nat) (w : world) :
  exists r, Json.dumps data indent w = (r, w)
            /\ Json.dumps_fuel (S (length (heap w))) [] indent 0 (heap w) data = Some r.
Proof.
  unfold Json.dumps.
  destruct (dumps_fuel_adequate (heap w) indent (S (length (heap w))) [] 0%nat data)
    as [r Hr].
  - constructor.
  - intros l Hl. by apply elem_of_nil in Hl.
  - simpl. lia.
  - rewrite Hr. by exists r.
Qed.

(** ** [call_ai_api] *)

(** C9. For every content, prompt, provider and key, [call_ai_api] returns
    the constant text and changes nothing: no request is sent to a provider
    and the store is as before. *)
Theorem call_ai_api_stub (content prompt api_provider : string)
    (api_key : option string) (w : world) :
  call_ai_api content prompt api_provider api_key w
  = (Ok "AI processing result placeholder", w)
  /\ requests (call_ai_api content prompt api_provider api_key w).2 = requests w.
Proof.
  unfold call_ai_api. run.
  destruct (String.eqb api_provider "OpenAI"); [by split|].
  destruct (String.eqb api_provider "Anthropic"); by split.
Qed.

(** ** The quality report *)

(** C2, as stated, fails: on two records with the same reference and the
    consistency check selected, the report holds [issues_found = 0], not one
    issue, and has no entry that could carry a DUPLICATE_REFERENCE issue. *)
Lemma duplicate_reference_not_reported :
  exists r q w',
    quality_check_run "upload.tsv" duplicate_tsv ["Consistency Check"] empty_world
    = (Ok r, w')
    /\ Py.items (heap w') (VRef 2) = Some [VRef 0; VRef 1]
    /\ Py.getitem (heap w') (VRef 0) "Book" = Py.getitem (heap w') (VRef 1) "Book"
    /\ Py.getitem (heap w') (VRef 0) "Chapter" = Py.getitem (heap w') (VRef 1) "Chapter"
    /\ Py.getitem (heap w') (VRef 0) "Verse" = Py.getitem (heap w') (VRef 1) "Verse"
    /\ Py.getitem (heap w') r "processed_data" = Some (VRef 2)
    /\ Py.getitem (heap w') r "quality_report" = Some q
    /\ deref (heap w') q
       = Some (ODict [("checks_performed", VRef 3);
                      ("issues_found", VInt 0);
                      ("quality_score", VInt 95)])
    /\ Py.items (heap w') (VRef 3) = Some [VStr "Consistency Check"]
    /\ Py.getitem (heap w') q "issues_found" <> Some (VInt 1).
Proof.
  eexists _, _, _. split; [vm_compute; reflexivity|].
  repeat split; try (vm_compute; reflexivity). vm_compute. discriminate.
Qed.

(** C2, amended. In Quality Check mode, for every data value and every dict
    of parameters, the result holds a [quality_report] with the checks
    selected under [check_types] (an empty list when there is none),
    [issues_found = 0] and [quality_score = 95]: no record is examined and no
    issue is reported. *)
Theorem quality_report_is_placeholder (w : world) (data params : val) :
  Py.is_dict (heap w) params = true ->
  exists r q checks w',
    process_bible_data data MODE_QUALITY params w = (Ok r, w')
    /\ Py.getitem (heap w') r "quality_report" = Some q
    /\ deref (heap w') q
       = Some (ODict [("checks_performed", checks);
                      ("issues_found", VInt 0);
                      ("quality_score", VInt 95)])
    /\ match Py.getitem (heap w) params "check_types" with
       | Some selected => checks = selected
       | None => deref (heap w') checks = Some (OList [])
       end.
Proof.
  intros Hd. destruct (is_dict_entries _ _ Hd) as [es He].
  rewrite (run_quality _ _ _ _ He).
  eexists _, (VRef (3 + length (heap w))), _, _. split; [reflexivity|].
  cbn [heap set_heap]. split; [item_at 1%nat|].
  split.
  - simpl. rewrite lookup_app_r by lia.
    by replace (S (S (S (length (heap w)))) - length (heap w))%nat with 3%nat by lia.
  - unfold Py.getitem. rewrite He. destruct (Py.assoc "check_types" es); simpl; [done|].
    rewrite lookup_app_r by lia.
    by replace (S (S (length (heap w))) - length (heap w))%nat with 2%nat by lia.
Qed.

Lemma quality_report_is_placeholder_witness :
  exists r q checks w',
    process_bible_data (VStr "text") MODE_QUALITY (VRef 0)
      {| heap := [ODict []]; requests := [] |} = (Ok r, w')
    /\ Py.getitem (heap w') r "quality_report" = Some q
    /\ deref (heap w') q
       = Some (ODict [("checks_performed", checks);
                      ("issues_found", VInt 0);
                      ("quality_score", VInt 95)])
    /\ deref (heap w') checks = Some (OList []).
Proof.
  destruct (quality_report_is_placeholder
              {| heap := [ODict []]; requests := [] |} (VStr "text") (VRef 0) eq_refl)
    as (r & q & checks & w' & H1 & H2 & H3 & H4).
  exists r, q, checks, w'. repeat split; assumption.
Defined.

Lemma process_bible_data_summary_witness :
  exists r st w',
    process_bible_data (VStr "one") "Custom Processing" (VRef 0)
      {| heap := [ODict []]; requests := [] |} = (Ok r, w')
    /\ Py.getitem (heap w') r "processed_data" = Some (VStr "one")
    /\ Py.getitem (heap w') r "statistics" = Some st
    /\ Py.getitem (heap w') st "total_entries" = Some (VInt 1).
Proof.
  destruct (process_bible_data_summary
              {| heap := [ODict []]; requests := [] |} (VStr "one")
              "Custom Processing" (VRef 0) eq_refl)
    as (r & st & w' & H1 & H2 & _ & H3 & _ & H4 & _).
  exists r, st, w'. repeat split; assumption.
Defined.

(** ** [create_download_content] *)

(** The two structured branches. *)
Lemma create_download_content_json (w : world) (data : val) (format_type : string) :
  PyStr.lower format_type = "json" ->
  create_download_content data format_type w = Json.dumps data 2 w.
Proof. intros H. unfold create_download_content. run. by rewrite H. Qed.

Lemma create_download_content_tsv (w : world) (data : val) (format_type : string) :
  PyStr.lower format_type = "tsv" -> Py.is_list (heap w) data = true ->
  create_download_content data format_type w
  = (df ← Pandas.DataFrame_of data; lift (Pandas.to_csv df)) w.
Proof. intros H Hl. unfold create_download_content. run. by rewrite H, Hl. Qed.

(** ** XML output *)

Lemma mem_char_join c sep parts p :
  p ∈ parts -> PyStr.mem_char c p = true ->
  PyStr.mem_char c (PyStr.join sep parts) = true.
Proof.
  intros Hin Hp. induction Hin as [p rest|p q rest Hin IH]; simpl.
  - destruct rest; [exact Hp|]. by rewrite mem_char_app, Hp.
  - destruct rest as [|q' rest']; [by apply elem_of_nil in Hin|].
    by rewrite !mem_char_app, IH, !orb_true_r.
Qed.

Lemma repr_body_keeps_less_than quote s :
  quote = PyStr.DQUOTE \/ quote = PyStr.SQUOTE ->
  PyStr.mem_char LESS_THAN s = true ->
  PyStr.mem_char LESS_THAN (PyStr.repr_body quote s) = true.
Proof.
  intros Hq H. induction s as [|c r IH]; simpl in *; [discriminate|].
  rewrite mem_char_app. destruct (Ascii.eqb_spec c LESS_THAN) as [->|Hne].
  - destruct Hq as [-> | ->]; reflexivity.
  - simpl in H. by rewrite (IH H), orb_true_r.
Qed.

(** [repr] copies a less-than sign as it is. *)
Lemma repr_str_keeps_less_than s :
  PyStr.mem_char LESS_THAN s = true -> PyStr.mem_char LESS_THAN (PyStr.repr s) = true.
Proof.
  intros H. unfold PyStr.repr.
  destruct (PyStr.mem_char PyStr.SQUOTE s && negb (PyStr.mem_char PyStr.DQUOTE s));
    simpl; rewrite mem_char_app, repr_body_keeps_less_than by auto;
    reflexivity.
Qed.

Lemma mapM_elem {A B} (f : A -> option B) (xs : list A) (ys : list B) (x : A) :
  mapM f xs = Some ys -> x ∈ xs -> exists y, f x = Some y /\ y ∈ ys.
Proof.
  intros Hm Hin. apply mapM_Some in Hm.
  induction Hm as [|x' y' xs' ys' Hxy _ IH]; [by apply elem_of_nil in Hin|].
  apply elem_of_cons in Hin as [->|Hin].
  - exists y'. split; [exact Hxy | by left].
  - destruct (IH Hin) as (y & ? & ?). exists y. split; [done | by right].
Qed.

Lemma repr_records_keep_less_than (h : list obj) (l d : nat) items entries k s :
  h !! l = Some (OList items) -> VRef d ∈ items ->
  h !! d = Some (ODict entries) -> (k, VStr s) ∈ entries ->
  PyStr.mem_char LESS_THAN s = true ->
  PyStr.mem_char LESS_THAN (Py.repr h (VRef l)) = true.
Proof.
  intros Hl Hd He Hk Hs.
  pose proof (repr_total h (VRef l)) as Hr. simpl in Hr. rewrite Hl in Hr.
  simpl in Hr.
  destruct (mapM _ items) as [parts|] eqn:Hparts; [|discriminate].
  simpl in Hr. injection Hr as <-.
  destruct (mapM_elem _ _ _ _ Hparts Hd) as (p & Hp & Hin).
  assert (Hne : d <> l) by (intros ->; congruence).
  destruct (length h) as [|n] eqn:Hn.
  { apply lookup_lt_Some in Hl. lia. }
  simpl in Hp. rewrite He in Hp.
  rewrite bool_decide_eq_false_2 in Hp
    by (intros [->|Hx%elem_of_nil]%elem_of_cons; done).
  destruct (mapM _ entries) as [fields|] eqn:Hfields; [|discriminate].
  simpl in Hp. injection Hp as <-.
  destruct (mapM_elem _ _ _ _ Hfields Hk) as (fld & Hfld & Hfin).
  simpl in Hfld. destruct n; simpl in Hfld; injection Hfld as <-.
  all: rewrite mem_char_app; apply orb_true_intro; right.
  all: rewrite mem_char_app; apply orb_true_intro; left.
  all: eapply mem_char_join; [exact Hin|].
  all: rewrite mem_char_app; apply orb_true_intro; right.
  all: rewrite mem_char_app; apply orb_true_intro; left.
  all: eapply mem_char_join; [exact Hfin|].
  all: rewrite !mem_char_app, (repr_str_keeps_less_than _ Hs); by rewrite !orb_true_r.
Qed.

(** C5, as stated, fails: the XML download of a record whose metadata has a
    less-than sign is the Python rendering of the list, with the sign as it
    is and no entity; nothing is raised. *)
Lemma xml_download_not_escaped :
  exists out w',
    (data ← read_uploaded_file "upload.tsv" note_tsv;
     create_download_content data "XML") empty_world = (Ok out, w')
    /\ out = "[{'Book': 'Genesis', 'Chapter': 1, 'Verse': 1, "
             ++ "'Target Text': 'In the beginning', 'Note': 'a<b'}]"
    /\ PyStr.mem_char LESS_THAN out = true
    /\ index 0 "&lt;" out = None.
Proof. eexists _, _. repeat split; vm_compute; reflexivity. Qed.

(** C5, amended. For the XML format, in any letter case,
    [create_download_content] returns [str(data)] and raises nothing; when
    the data is a list holding a record with a text value that has a
    less-than sign, the sign is in the output as it is. *)
Theorem xml_download_is_str (w : world) (data : val) (format_type : string) :
  PyStr.lower format_type = "xml" ->
  create_download_content data format_type w = (Ok (Py.str (heap w) data), w)
  /\ (forall items d entries k s,
        Py.items (heap w) data = Some items -> VRef d ∈ items ->
        heap w !! d = Some (ODict entries) -> (k, VStr s) ∈ entries ->
        PyStr.mem_char LESS_THAN s = true ->
        PyStr.mem_char LESS_THAN (Py.str (heap w) data) = true).
Proof.
  intros Hx. split.
  - unfold create_download_content. run. by rewrite Hx.
  - intros items d entries k s Hi Hd He Hk Hs.
    unfold Py.items in Hi. destruct data as [| | | |l]; simpl in Hi; try discriminate.
    destruct (heap w !! l) as [[xs|]|] eqn:E; try discriminate.
    injection Hi as ->. simpl. eapply repr_records_keep_less_than; eauto.
Qed.

Lemma xml_download_is_str_witness :
  create_download_content (VRef 1) "Xml"
    {| heap := [ODict [("Note", VStr "a<b")]; OList [VRef 0]]; requests := [] |}
  = (Ok "[{'Note': 'a<b'}]",
     {| heap := [ODict [("Note", VStr "a<b")]; OList [VRef 0]]; requests := [] |}).
Proof.
  apply (xml_download_is_str
           {| heap := [ODict [("Note", VStr "a<b")]; OList [VRef 0]]; requests := [] |}
           (VRef 1) "Xml" eq_refl).
Defined.

(** ** Reading back what the TSV writer writes *)

Lemma split_no_sep c s : PyStr.mem_char c s = false -> PyStr.split c s = [s].
Proof.
  induction s as [|d r IH]; simpl; [reflexivity|].
  destruct (Ascii.eqb d c); simpl; [discriminate|]. intros H. by rewrite IH.
Qed.

Lemma split_app_sep c p rest :
  PyStr.mem_char c p = false ->
  PyStr.split c (p ++ String c rest) = p :: PyStr.split c rest.
Proof.
  induction p as [|d r IH]; simpl.
  - by rewrite Ascii.eqb_refl.
  - destruct (Ascii.eqb d c); simpl; [discriminate|]. intros H. by rewrite IH.
Qed.

Lemma split_join c parts :
  parts <> [] -> Forall (fun p => PyStr.mem_char c p = false) parts ->
  PyStr.split c (PyStr.join (String c EmptyString) parts) = parts.
Proof.
  intros Hne Hall. induction Hall as [|p rest Hp Hrest IH]; [done|].
  destruct rest as [|q rest'].
  - simpl. by apply split_no_sep.
  - change (PyStr.join (String c EmptyString) (p :: q :: rest'))
      with (p ++ String c (PyStr.join (String c EmptyString) (q :: rest'))).
    rewrite split_app_sep by done. by rewrite IH.
Qed.

Lemma mem_char_join_false c sep parts :
  PyStr.mem_char c sep = false ->
  Forall (fun p => PyStr.mem_char c p = false) parts ->
  PyStr.mem_char c (PyStr.join sep parts) = false.
Proof.
  intros Hsep Hall. induction Hall as [|p rest Hp Hrest IH]; [done|].
  destruct rest as [|q rest']; [exact Hp|].
  change (PyStr.join sep (p :: q :: rest'))
    with (p ++ sep ++ PyStr.join sep (q :: rest')).
  by rewrite !mem_char_app, Hp, Hsep, IH.
Qed.

Lemma string_app_assoc (a b c : string) : (a ++ b) ++ c = a ++ (b ++ c).
Proof.
  induction a as [|x a IH]; [reflexivity|].
  change (String x ((a ++ b) ++ c) = String x (a ++ b ++ c)). by rewrite IH.
Qed.

Lemma csv_lines_cons fields rest :
  Pandas.csv_lines (fields :: rest)
  = line_of fields ++ String PyStr.LF (Pandas.csv_lines rest).
Proof.
  cbn [Pandas.csv_lines]. unfold Pandas.csv_line, line_of.
  by rewrite string_app_assoc.
Qed.

Lemma field_ok_chars s :
  field_ok s = true ->
  is_ascii s = true /\ s <> EmptyString
  /\ PyStr.mem_char PyStr.TAB s = false /\ PyStr.mem_char PyStr.LF s = false
  /\ PyStr.mem_char PyStr.CR s = false /\ PyStr.mem_char PyStr.DQUOTE s = false
  /\ Pandas.only_spaces s = false.
Proof.
  unfold field_ok, Pandas.csv_plain, Pandas.nonblank.
  intros [[Ha [Hn Hc%negb_true_iff]%andb_prop]%andb_prop Hs%negb_true_iff]%andb_prop.
  apply orb_false_elim in Hc as [Hc Hq]. apply orb_false_elim in Hc as [Hc Hcr].
  apply orb_false_elim in Hc as [Ht Hl].
  repeat split; try done. intros ->. discriminate.
Qed.

Lemma only_spaces_app a b :
  Pandas.only_spaces (a ++ b) = Pandas.only_spaces a && Pandas.only_spaces b.
Proof. induction a as [|x a IH]; simpl; [reflexivity|]. by rewrite IH, andb_assoc. Qed.

Lemma is_ascii_app a b : is_ascii (a ++ b) = is_ascii a && is_ascii b.
Proof. induction a as [|x a IH]; simpl; [reflexivity|]. by rewrite IH, andb_assoc. Qed.

Lemma is_ascii_join sep parts :
  is_ascii sep = true -> Forall (fun p => is_ascii p = true) parts ->
  is_ascii (PyStr.join sep parts) = true.
Proof.
  intros Hsep Hall. induction Hall as [|p rest Hp Hrest IH]; [done|].
  destruct rest as [|q rest']; [exact Hp|].
  change (PyStr.join sep (p :: q :: rest'))
    with (p ++ sep ++ PyStr.join sep (q :: rest')).
  by rewrite !is_ascii_app, Hp, Hsep, IH.
Qed.

Section Line.
Context (row : list string) (Hne : row <> [])
        (Hok : Forall (fun c => field_ok c = true) row).

Lemma line_no_char c :
  c <> PyStr.TAB -> (forall s, field_ok s = true -> PyStr.mem_char c s = false) ->
  PyStr.mem_char c (line_of row) = false.
Proof.
  intros Hc Hf. apply mem_char_join_false.
  - change (Ascii.eqb PyStr.TAB c || false = false).
    rewrite orb_false_r. apply Ascii.eqb_neq. congruence.
  - eapply Forall_impl; [exact Hok|]. intros s Hs. by apply Hf.
Qed.

Lemma line_split : PyStr.split PyStr.TAB (line_of row) = row.
Proof.
  apply split_join; [exact Hne|].
  eapply Forall_impl; [exact Hok|]. intros s Hs.
  by apply field_ok_chars in Hs as (_ & _ & Ht & _).
Qed.

Lemma line_not_spaces : Pandas.only_spaces (line_of row) = false.
Proof.
  unfold line_of. destruct Hok as [|c rest Hc Hrest]; [done|].
  apply field_ok_chars in Hc as (_ & _ & _ & _ & _ & _ & Hsp).
  destruct rest; simpl; [exact Hsp|]. by rewrite only_spaces_app, Hsp.
Qed.

Lemma line_nonblank : Pandas.nonblank (line_of row) = true.
Proof.
  unfold Pandas.nonblank. destruct (String.eqb_spec (line_of row) EmptyString) as [E|]; [|done].
  pose proof line_not_spaces as H. rewrite E in H. discriminate.
Qed.

Lemma line_ascii : is_ascii (line_of row) = true.
Proof.
  apply is_ascii_join; [reflexivity|].
  eapply Forall_impl; [exact Hok|]. intros s Hs.
  by apply field_ok_chars in Hs as (Ha & _).
Qed.

End Line.

Lemma csv_lines_no_char c table :
  c <> PyStr.TAB -> c <> PyStr.LF ->
  (forall s, field_ok s = true -> PyStr.mem_char c s = false) ->
  table_ok table -> PyStr.mem_char c (Pandas.csv_lines table) = false.
Proof.
  intros Ht Hl Hf Hall. induction Hall as [|row rest [Hne Hok] _ IH]; [reflexivity|].
  rewrite csv_lines_cons, mem_char_app, (line_no_char row Hok c Ht Hf).
  cbn [PyStr.mem_char orb]. rewrite IH, orb_false_r. apply Ascii.eqb_neq. congruence.
Qed.

Lemma csv_lines_ascii table : table_ok table -> is_ascii (Pandas.csv_lines table) = true.
Proof.
  intros Hall. induction Hall as [|row rest [Hne Hok] _ IH]; [reflexivity|].
  rewrite csv_lines_cons, is_ascii_app, (line_ascii row Hok).
  cbn [is_ascii andb]. by rewrite IH.
Qed.

Lemma csv_lines_split table :
  table_ok table ->
  PyStr.split PyStr.LF (Pandas.csv_lines table) = ((line_of <$> table) ++ [EmptyString])%list.
Proof.
  intros Hall. induction Hall as [|row rest [Hne Hok] _ IH]; [reflexivity|].
  rewrite csv_lines_cons, split_app_sep, IH; [reflexivity|].
  apply (line_no_char row Hok); [discriminate|].
  intros s Hs. by apply field_ok_chars in Hs as (_ & _ & _ & Hl & _).
Qed.

Lemma tokenize_csv_lines table :
  table_ok table -> Pandas.tokenize (Pandas.csv_lines table) = Some table.
Proof.
  intros Hall. unfold Pandas.tokenize.
  rewrite (csv_lines_no_char PyStr.DQUOTE), (csv_lines_no_char PyStr.CR);
    try discriminate; try done.
  2: { intros s Hs. by apply field_ok_chars in Hs as (_ & _ & _ & _ & Hc & _). }
  2: { intros s Hs. by apply field_ok_chars in Hs as (_ & _ & _ & _ & _ & Hq & _). }
  cbn [orb]. rewrite csv_lines_split by done.
  assert (Hlines : existsb (fun l => Pandas.nonblank l && Pandas.only_spaces l)
                     ((line_of <$> table) ++ [EmptyString])%list = false
                   /\ filter (fun l => Pandas.nonblank l = true)
                        ((line_of <$> table) ++ [EmptyString])%list = line_of <$> table
                   /\ PyStr.split PyStr.TAB <$> (line_of <$> table) = table).
  { induction Hall as [|row rest [Hne Hok] _ (IH1 & IH2 & IH3)]; [done|].
    rewrite fmap_cons, <- app_comm_cons. cbn [existsb fmap list_fmap].
    rewrite filter_cons_True by (by apply line_nonblank).
    pose proof (line_not_spaces row Hne Hok) as Hsp.
    rewrite Hsp, andb_false_r.
    split; [exact IH1|]. split; [by rewrite IH2|].
    f_equal; [by apply line_split | exact IH3]. }
  destruct Hlines as (-> & -> & Hs). by rewrite <- Hs at 2.
Qed.

(** ** Column types *)

Lemma letter_not_digit a :
  Pandas.is_letter a = true -> Pandas.is_digit a = false /\ Ascii.eqb a "-" = false.
Proof.
  unfold Pandas.is_letter, Pandas.is_digit, PyStr.in_range. intros H.
  assert (Hc : (65 <= PyStr.code a)%nat).
  { apply orb_prop in H as [H|H]; apply andb_prop in H as [H _];
      apply Nat.leb_le in H; lia. }
  split.
  - apply andb_false_intro2. apply Nat.leb_gt. lia.
  - apply Ascii.eqb_neq. intros ->. vm_compute in Hc. lia.
Qed.

Lemma plain_text_not_int c : Pandas.plain_text c = true -> Pandas.int_literal c = None.
Proof.
  destruct c as [|a r]; [discriminate|]. unfold Pandas.plain_text.
  intros [[Hl _]%andb_prop _]%andb_prop.
  destruct (letter_not_digit a Hl) as [Hd Hm].
  unfold Pandas.int_literal. rewrite Hm. unfold Pandas.natural_literal.
  cbn [Pandas.all_digits]. by rewrite Hd.
Qed.

Lemma plain_text_not_na c : Pandas.plain_text c = true -> Pandas.is_na c = false.
Proof.
  destruct c as [|a r]; [discriminate|]. unfold Pandas.plain_text.
  intros [[_ Hn]%andb_prop _]%andb_prop. by apply negb_true_iff in Hn.
Qed.

Lemma int_literal_not_na c : is_Some (Pandas.int_literal c) -> Pandas.is_na c = false.
Proof.
  intros Hi. destruct (Pandas.is_na c) eqn:E; [|reflexivity]. exfalso.
  unfold Pandas.is_na in E. apply existsb_exists in E as (m & Hin & Heq).
  apply String.eqb_eq in Heq. subst m.
  assert (Hnone : Forall (fun m => Pandas.int_literal m = None) Pandas.NA_VALUES)
    by (repeat constructor).
  rewrite Forall_forall in Hnone. apply list_elem_of_In in Hin.
  rewrite (Hnone _ Hin) in Hi. by destruct Hi.
Qed.

Lemma cell_ok_kind c :
  cell_ok c = true -> Pandas.plain_text c = true \/ is_Some (Pandas.int_literal c).
Proof.
  unfold cell_ok. intros [_ [H|H]%orb_prop]%andb_prop; [by left|right].
  by apply bool_decide_eq_true in H.
Qed.

Lemma infer_cells cells :
  Forall (fun c => cell_ok c = true) cells ->
  exists k, Pandas.infer cells = Some k
            /\ forall c, c ∈ cells -> Pandas.plain_text c = true -> k = Pandas.KText.
Proof.
  intros Hall. unfold Pandas.infer.
  assert (Hna : existsb Pandas.is_na cells = false).
  { induction Hall as [|c rest Hc _ IH]; [reflexivity|]. simpl. rewrite IH, orb_false_r.
    destruct (cell_ok_kind c Hc);
      [by apply plain_text_not_na | by apply int_literal_not_na]. }
  rewrite Hna.
  destruct (forallb _ cells) eqn:Hint.
  - exists Pandas.KInt. split; [reflexivity|]. intros c Hin Hp. exfalso.
    rewrite forallb_forall in Hint. apply list_elem_of_In in Hin.
    specialize (Hint c Hin). apply bool_decide_eq_true in Hint.
    rewrite (plain_text_not_int c Hp) in Hint. by destruct Hint.
  - assert (Hex : existsb Pandas.plain_text cells = true).
    { clear Hna. induction Hall as [|c rest Hc _ IH]; [discriminate|].
      simpl in Hint. simpl. apply andb_false_iff in Hint as [Hint|Hint].
      - destruct (cell_ok_kind c Hc) as [->|Hi]; [reflexivity|].
        apply bool_decide_eq_false in Hint. done.
      - by rewrite IH, orb_true_r. }
    rewrite Hex. by exists Pandas.KText.
Qed.

Lemma column_cells (width : nat) (rows : list (list string)) (j : nat) :
  Forall (fun row => length row = width /\ Forall (fun c => cell_ok c = true) row) rows ->
  (j < width)%nat ->
  Forall (fun c => cell_ok c = true) (Pandas.column j rows)
  /\ forall i row c, rows !! i = Some row -> row !! j = Some c -> c ∈ Pandas.column j rows.
Proof.
  intros Hall Hj. unfold Pandas.column. split.
  - apply Forall_fmap. eapply Forall_impl; [exact Hall|]. intros row [Hlen Hrow]. simpl.
    rewrite Forall_forall in Hrow. apply Hrow.
    apply list_elem_of_In, nth_In. lia.
  - intros i row c Hi Hc. apply list_elem_of_fmap. exists row. split.
    + symmetry. by apply nth_lookup_Some with (d := EmptyString) in Hc.
    + by eapply list_elem_of_lookup_2.
Qed.

(** ** [read_csv] on a written table *)

Lemma cell_ok_field c : cell_ok c = true -> field_ok c = true.
Proof. unfold cell_ok. by intros [? _]%andb_prop. Qed.

Lemma table_ok_of names rows :
  header_ok names -> body_ok (length names) rows -> table_ok (names :: rows).
Proof.
  intros (Hne & Hnames & _) Hrows. constructor; [by split|].
  eapply Forall_impl; [exact Hrows|]. intros row [Hlen Hrow]. split.
  - intros ->. destruct names; [done | discriminate].
  - eapply Forall_impl; [exact Hrow|]. apply cell_ok_field.
Qed.

Lemma read_csv_csv_lines names rows :
  header_ok names -> body_ok (length names) rows ->
  exists kinds,
    mapM (fun j => Pandas.infer (Pandas.column j rows)) (seq 0 (length names)) = Some kinds
    /\ Pandas.read_csv (Pandas.csv_lines (names :: rows))
       = Ok {| Pandas.columns := names;
               Pandas.rows := zip_with Pandas.convert kinds <$> rows |}.
Proof.
  intros Hh Hb. pose proof (table_ok_of _ _ Hh Hb) as Ht.
  destruct Hh as (Hne & Hnames & Hnd).
  assert (Hk : is_Some (mapM (fun j => Pandas.infer (Pandas.column j rows))
                          (seq 0 (length names)))).
  { apply mapM_is_Some, Forall_forall. intros j Hj%elem_of_seq. simpl.
    destruct (column_cells _ _ j Hb) as [Hcells _]; [lia|].
    destruct (infer_cells _ Hcells) as (k & -> & _). by eexists. }
  destruct Hk as [kinds Hk]. exists kinds. split; [exact Hk|].
  unfold Pandas.read_csv. rewrite (tokenize_csv_lines _ Ht).
  assert (He : existsb (String.eqb EmptyString) names = false).
  { clear -Hnames. induction Hnames as [|c rest Hc _ IH]; [reflexivity|].
    cbn [existsb]. rewrite IH, orb_false_r.
    apply field_ok_chars in Hc as (_ & Hc & _).
    apply String.eqb_neq. congruence. }
  rewrite He, (bool_decide_eq_true_2 _ Hnd). cbn [orb negb].
  assert (Hw : forallb (fun r => (length r =? length names)%nat) rows = true).
  { apply forallb_forall. intros r Hr%list_elem_of_In.
    unfold body_ok in Hb. rewrite Forall_forall in Hb. destruct (Hb r Hr) as [-> _].
    apply Nat.eqb_refl. }
  rewrite Hw. cbn [negb]. by rewrite Hk.
Qed.

Lemma alloc_all_ok (os : list obj) :
  forall w, Pandas.alloc_all os w
            = (Ok (VRef <$> seq (length (heap w)) (length os)),
               set_heap (heap w ++ os) w).
Proof.
  induction os as [|o rest IH]; intros w.
  - unfold set_heap. simpl. rewrite app_nil_r. by destruct w.
  - cbn [Pandas.alloc_all]. run. rewrite IH. simpl.
    rewrite length_app, <- app_assoc. simpl.
    by rewrite Nat.add_1_r.
Qed.

Lemma to_dict_records_ok (df : Pandas.DataFrame) (w : world) :
  Pandas.to_dict_records df w
  = (Ok (VRef (length (heap w) + length (Pandas.rows df))),
     set_heap (heap w
               ++ ((fun row => ODict (zip (Pandas.columns df) row)) <$> Pandas.rows df)
               ++ [OList (VRef <$> seq (length (heap w)) (length (Pandas.rows df)))]) w).
Proof.
  unfold Pandas.to_dict_records. unfold mbind at 1, M_bind at 1.
  rewrite alloc_all_ok. run.
  by rewrite length_app, !length_fmap, <- app_assoc.
Qed.

Lemma read_uploaded_tsv name content df w :
  PyStr.endswith name ".tsv" = true -> is_ascii content = true ->
  Pandas.read_csv content = Ok df ->
  read_uploaded_file name content w = Pandas.to_dict_records df w.
Proof.
  intros Hn Ha Hr. unfold read_uploaded_file, decode_utf8. rewrite Hn, Ha.
  run. by rewrite Hr.
Qed.

Lemma read_csv_header_line names :
  header_ok names ->
  Pandas.read_csv (line_of names) = Ok {| Pandas.columns := names; Pandas.rows := [] |}
  /\ is_ascii (line_of names) = true.
Proof.
  intros (Hne & Hnames & Hnd). split; [|by apply line_ascii].
  assert (Hchar : forall c, c <> PyStr.TAB ->
            (forall s, field_ok s = true -> PyStr.mem_char c s = false) ->
            PyStr.mem_char c (line_of names) = false)
    by (intros; by apply line_no_char).
  unfold Pandas.read_csv, Pandas.tokenize.
  rewrite (Hchar PyStr.DQUOTE), (Hchar PyStr.CR); try discriminate.
  2: { intros s Hs. by apply field_ok_chars in Hs as (_ & _ & _ & _ & Hc & _). }
  2: { intros s Hs. by apply field_ok_chars in Hs as (_ & _ & _ & _ & _ & Hq & _). }
  rewrite split_no_sep.
  2: { apply Hchar; [discriminate|]. intros s Hs.
       by apply field_ok_chars in Hs as (_ & _ & _ & Hl & _). }
  pose proof (line_not_spaces names Hne Hnames) as Hsp.
  cbn [orb existsb]. rewrite Hsp, andb_false_r. cbn [orb].
  rewrite filter_cons_True by (by apply line_nonblank). rewrite filter_nil.
  cbn [map]. rewrite (line_split names Hne Hnames).
  assert (He : existsb (String.eqb EmptyString) names = false).
  { clear -Hnames. induction Hnames as [|c rest Hc _ IH]; [reflexivity|].
    cbn [existsb]. rewrite IH, orb_false_r.
    apply field_ok_chars in Hc as (_ & Hc & _).
    apply String.eqb_neq. congruence. }
  rewrite He, (bool_decide_eq_true_2 _ Hnd). cbn [orb negb forallb].
  assert (Hk : exists kinds, mapM (fun j => Pandas.infer (Pandas.column j []))
                               (seq 0 (length names)) = Some kinds).
  { apply mapM_is_Some, Forall_forall. intros; by eexists. }
  destruct Hk as [kinds ->]. reflexivity.
Qed.

(** C6. A TSV upload that is a header row and nothing else, with or without
    the closing line feed, is read without error into a new empty list.  The
    header is any row of distinct, non-empty ASCII names without tab, line
    feed, carriage return or double quote. *)
Theorem header_only_tsv_parses_empty (w : world) (name : string) (names : list string) :
  PyStr.endswith name ".tsv" = true ->
  header_ok names ->
  read_uploaded_file name (Pandas.csv_lines [names]) w
  = (Ok (VRef (length (heap w))), set_heap (heap w ++ [OList []]) w)
  /\ read_uploaded_file name (line_of names) w
     = (Ok (VRef (length (heap w))), set_heap (heap w ++ [OList []]) w).
Proof.
  intros Hn Hh. split.
  - assert (Hb : body_ok (length names) []) by constructor.
    destruct (read_csv_csv_lines names [] Hh Hb) as (kinds & _ & Hr).
    rewrite (read_uploaded_tsv _ _ _ w Hn (csv_lines_ascii _ (table_ok_of _ _ Hh Hb)) Hr).
    rewrite to_dict_records_ok. simpl. by rewrite Nat.add_0_r.
  - destruct (read_csv_header_line names Hh) as [Hr Ha].
    rewrite (read_uploaded_tsv _ _ _ w Hn Ha Hr).
    rewrite to_dict_records_ok. simpl. by rewrite Nat.add_0_r.
Qed.

Lemma required_columns_ok : header_ok REQUIRED_COLUMNS.
Proof.
  split; [discriminate|]. split.
  - repeat constructor.
  - apply (bool_decide_unpack _). vm_compute. exact I.
Defined.

Lemma header_only_tsv_parses_empty_witness :
  read_uploaded_file "upload.tsv" (Pandas.csv_lines [REQUIRED_COLUMNS]) empty_world
  = (Ok (VRef 0), {| heap := [OList []]; requests := [] |}).
Proof.
  apply (header_only_tsv_parses_empty empty_world "upload.tsv" REQUIRED_COLUMNS
           eq_refl required_columns_ok).
Defined.

(** ** Rows that the specified parser would reject *)

(** C4, as stated, fails: a table without the required [Verse] column and
    with a chapter that is no number is read without any error; both rows
    become records and the chapters are kept as text. *)
Lemma malformed_tsv_is_accepted :
  exists w',
    read_uploaded_file "upload.tsv" malformed_tsv empty_world = (Ok (VRef 2), w')
    /\ heap w'
       = [ODict [("Book", VStr "Genesis"); ("Chapter", VStr "1");
                 ("Target Text", VStr "In the beginning")];
          ODict [("Book", VStr "Genesis"); ("Chapter", VStr "one");
                 ("Target Text", VStr "Variant reading")];
          OList [VRef 0; VRef 1]]
    /\ (forall e, (read_uploaded_file "upload.tsv" malformed_tsv empty_world).1
                  <> Raise e).
Proof.
  eexists. split; [vm_compute; reflexivity|]. split; [reflexivity|].
  intros e. vm_compute. discriminate.
Qed.

(** C4, amended. The upload step checks neither the column names nor the
    chapter and verse fields, and there is no ParseError.  Take an upload
    made of a header line and data lines, every line ended by a line feed and
    its fields separated by tabs, where the header names are distinct
    ([header_ok]), every data line has as many fields as the header, and
    every field is of the kind [field_ok], a data field being moreover a
    decimal integer of 64 bits or a text that starts with a letter and that
    no converter of pandas takes ([cell_ok]).  Such an upload is read without
    error, whatever its columns are called, into one record per data line, in
    the order of the lines, keyed by the header names, and a field that is
    such a text is kept as that text.  Nothing is said of other uploads: a
    data line shorter or longer than the header, blank lines, quoted fields,
    text outside ASCII or text that starts with a digit. *)
Theorem tsv_rows_are_all_kept (w : world) (name : string) (names : list string)
    (rows : list (list string)) :
  PyStr.endswith name ".tsv" = true ->
  header_ok names ->
  body_ok (length names) rows ->
  exists w' records,
    read_uploaded_file name (Pandas.csv_lines (names :: rows)) w
    = (Ok (VRef (length (heap w) + length rows)), w')
    /\ heap w' !! (length (heap w) + length rows)%nat = Some (OList records)
    /\ length records = length rows
    /\ forall i row,
        rows !! i = Some row ->
        exists entries,
          records !! i = Some (VRef (length (heap w) + i))
          /\ heap w' !! (length (heap w) + i)%nat = Some (ODict entries)
          /\ entries.*1 = names
          /\ forall j c, row !! j = Some c -> Pandas.plain_text c = true ->
                         entries.*2 !! j = Some (VStr c).
Proof.
  intros Hn Hh Hb.
  destruct (read_csv_csv_lines names rows Hh Hb) as (kinds & Hk & Hr).
  rewrite (read_uploaded_tsv _ _ _ w Hn (csv_lines_ascii _ (table_ok_of _ _ Hh Hb)) Hr).
  rewrite to_dict_records_ok. cbn [Pandas.rows Pandas.columns].
  rewrite !length_fmap. eexists _, _. split; [reflexivity|].
  cbn [heap set_heap].
  assert (Hlen : length kinds = length names).
  { apply length_mapM in Hk. by rewrite length_seq in Hk. }
  split; [|split].
  - rewrite lookup_app_r by lia. rewrite lookup_app_r by (rewrite !length_fmap; lia).
    rewrite !length_fmap.
    by replace (length (heap w) + length rows - length (heap w) - length rows)%nat
      with 0%nat by lia.
  - by rewrite length_fmap, length_seq.
  - intros i row Hi. pose proof (lookup_lt_Some _ _ _ Hi) as Hlt.
    unfold body_ok in Hb. rewrite Forall_lookup in Hb. destruct (Hb i row Hi) as [Hw Hcells].
    exists (zip names (zip_with Pandas.convert kinds row)).
    assert (Htyped : length (zip_with Pandas.convert kinds row) = length names).
    { rewrite length_zip_with. lia. }
    split; [|split; [|split]].
    + rewrite list_lookup_fmap, lookup_seq_lt by done. reflexivity.
    + rewrite lookup_app_r by lia.
      rewrite lookup_app_l by (rewrite !length_fmap; lia).
      replace (length (heap w) + i - length (heap w))%nat with i by lia.
      by rewrite !list_lookup_fmap, Hi.
    + apply fst_zip. lia.
    + intros j c Hj Hp. rewrite snd_zip by lia.
      pose proof (lookup_lt_Some _ _ _ Hj) as Hjlt. rewrite Hw in Hjlt.
      apply mapM_Some_1 in Hk.
      destruct (Forall2_lookup_l _ _ _ j j Hk) as (k & Hkj & Hinf);
        [by apply lookup_seq_lt|].
      rewrite lookup_zip_with, Hkj. cbn [mbind option_bind]. rewrite Hj.
      cbn [mbind option_bind].
      assert (Hb' : body_ok (length names) rows) by (by apply Forall_lookup).
      destruct (column_cells _ _ j Hb' Hjlt) as [Hcol Hmem].
      destruct (infer_cells _ Hcol) as (k' & Hk' & Htext).
      rewrite Hk' in Hinf. injection Hinf as <-.
      by rewrite (Htext c (Hmem i row c Hi Hj) Hp).
Qed.

Lemma tsv_rows_are_all_kept_witness :
  exists w' records,
    read_uploaded_file "upload.tsv"
      (Pandas.csv_lines [["Book"; "Chapter"]; ["Genesis"; "one"]]) empty_world
    = (Ok (VRef 1), w')
    /\ heap w' !! 1%nat = Some (OList records)
    /\ length records = 1%nat.
Proof.
  assert (Hh : header_ok ["Book"; "Chapter"]).
  { split; [discriminate|]. split; [repeat constructor|].
    apply (bool_decide_unpack _). vm_compute. exact I. }
  assert (Hb : body_ok 2 [["Genesis"; "one"]]).
  { constructor; [|constructor]. split; [reflexivity|]. repeat constructor. }
  destruct (tsv_rows_are_all_kept empty_world "upload.tsv" ["Book"; "Chapter"]
              [["Genesis"; "one"]] eq_refl Hh Hb)
    as (w' & records & H1 & H2 & H3 & _).
  exists w', records. repeat split; assumption.
Defined.

(** ** The Format Conversion page and the TSV round trip *)

(** C3 at a header-only upload.  The upload is read into an empty list; its
    TSV download is a lone line feed, the header being lost with the records;
    reading that download back raises EmptyDataError instead of giving the
    empty list again. *)
Lemma header_only_round_trip_fails :
  exists w1 w2 out,
    read_uploaded_file "upload.tsv" header_only_tsv empty_world = (Ok (VRef 0), w1)
    /\ heap w1 = [OList []]
    /\ convert_page "upload.tsv" header_only_tsv "TSV" "TSV" empty_world = (Ok (Some out), w2)
    /\ out = String PyStr.LF EmptyString
    /\ read_uploaded_file "processed_upload.tsv" out w2 = (Raise EmptyDataError, w2).
Proof.
  eexists _, _, _. split; [vm_compute; reflexivity|]. split; [reflexivity|].
  split; [vm_compute; reflexivity|]. split; reflexivity.
Qed.

(** With a data row the same page gives back the table it was given. *)
Lemma one_row_round_trip :
  exists w out,
    convert_page "upload.tsv" duplicate_tsv "TSV" "TSV" empty_world = (Ok (Some out), w)
    /\ out = duplicate_tsv
    /\ Pandas.read_csv out = Pandas.read_csv duplicate_tsv.
Proof. eexists _, _. split; [vm_compute; reflexivity|]. split; reflexivity. Qed.

(** ** Two runs on the same input *)








Lemma keys_at (h : list obj) (l : nat) entries :
  h !! l = Some (ODict entries) -> keys h (Some (VRef l)) = Some entries.*1.
Proof. intros H. unfold keys. simpl. by rewrite H. Qed.















(** ** Integers written and read back *)

Lemma pretty_N_char_digit (d : N) :
  (d < 10)%N ->
  Pandas.is_digit (pretty_N_char d) = true
  /\ Z.of_nat (PyStr.code (pretty_N_char d) - 48) = Z.of_N d.
Proof.
  intros Hd.
  assert (d = 0 \/ d = 1 \/ d = 2 \/ d = 3 \/ d = 4 \/ d = 5 \/ d = 6 \/ d = 7
          \/ d = 8 \/ d = 9)%N as H by lia.
  repeat (destruct H as [->|H]; [by split|]). subst. by split.
Qed.

Lemma pretty_N_go_digits (x : N) :
  forall s,
    Pandas.all_digits (pretty_N_go x s) = Pandas.all_digits s
    /\ Pandas.digits_value 0 (pretty_N_go x s) = Pandas.digits_value (Z.of_N x) s
    /\ (head_digit s = true \/ (0 < x)%N -> head_digit (pretty_N_go x s) = true).
Proof.
  induction (N.lt_wf_0 x) as [x _ IH]. intros s.
  assert (x = 0 \/ 0 < x)%N as [->|Hx] by lia.
  - rewrite pretty_N_go_0. repeat split. intros [H|H]; [exact H | lia].
  - rewrite pretty_N_go_step by done.
    destruct (pretty_N_char_digit (x `mod` 10)%N) as [Hd Hv];
      [by apply N.mod_lt|].
    destruct (IH (x `div` 10)%N (N.div_lt x 10 Hx eq_refl)
                (String (pretty_N_char (x `mod` 10)) s)) as (H1 & H2 & H3).
    split; [|split].
    + rewrite H1. simpl. by rewrite Hd.
    + rewrite H2. cbn [Pandas.digits_value]. f_equal. rewrite Hv.
      pose proof (N.div_mod x 10). lia.
    + intros _. apply H3. left. exact Hd.
Qed.

Lemma digit_not_minus c : Pandas.is_digit c = true -> Ascii.eqb c "-" = false.
Proof.
  unfold Pandas.is_digit, PyStr.in_range. intros [H _]%andb_prop.
  apply Nat.leb_le in H. apply Ascii.eqb_neq. intros ->. vm_compute in H. lia.
Qed.

Lemma natural_literal_pretty (p : positive) :
  Pandas.natural_literal (pretty (Npos p)) = Some (Zpos p)
  /\ head_digit (pretty (Npos p)) = true
  /\ Pandas.all_digits (pretty (Npos p)) = true.
Proof.
  unfold pretty, pretty_N. rewrite decide_False by done.
  destruct (pretty_N_go_digits (Npos p) EmptyString) as (H1 & H2 & H3).
  specialize (H3 (or_intror eq_refl)).
  split; [|split; [exact H3 | by rewrite H1]].
  unfold Pandas.natural_literal.
  destruct (pretty_N_go (Npos p) EmptyString) as [|c r]; [discriminate|].
  by rewrite H1, H2.
Qed.

Lemma int_literal_pretty (n : Z) :
  int64 n -> Pandas.int_literal (pretty n) = Some n.
Proof.
  intros Hn.
  assert (Hr : (- 2 ^ 63 <=? n) && (n <? 2 ^ 63) = true).
  { apply andb_true_intro. split; [apply Z.leb_le | apply Z.ltb_lt]; apply Hn. }
  destruct n as [|p|p].
  - reflexivity.
  - change (pretty (Zpos p)) with (pretty (Npos p)).
    destruct (natural_literal_pretty p) as (Hv & Hh & _).
    unfold Pandas.int_literal. revert Hv Hh.
    destruct (pretty (Npos p)) as [|c r]; intros Hv Hh; [discriminate|].
    cbv iota. rewrite (digit_not_minus c Hh), Hv. cbn [mbind option_bind].
    by rewrite Hr.
  - change (pretty (Zneg p)) with (String "-" (pretty (Npos p))).
    destruct (natural_literal_pretty p) as (Hv & _).
    unfold Pandas.int_literal.
    cbv iota. rewrite Ascii.eqb_refl, Hv.
    cbn [fmap option_fmap option_map mbind option_bind].
    change (- Z.pos p) with (Z.neg p). by rewrite Hr.
Qed.

Lemma int_literal_int64 c n : Pandas.int_literal c = Some n -> int64 n.
Proof.
  unfold Pandas.int_literal.
  destruct (match c with String a r => _ | EmptyString => None end) as [m|];
    [|discriminate].
  cbn [mbind option_bind].
  destruct ((- 2 ^ 63 <=? m) && (m <? 2 ^ 63)) eqn:E; [|discriminate].
  intros [= <-]. apply andb_prop in E as [H1 H2].
  split; [by apply Z.leb_le | by apply Z.ltb_lt].
Qed.

(** A string of digits, with or without a sign in front, is a plain field. *)
Lemma digits_field_chars s :
  Pandas.all_digits s = true ->
  is_ascii s = true
  /\ PyStr.mem_char PyStr.TAB s = false /\ PyStr.mem_char PyStr.LF s = false
  /\ PyStr.mem_char PyStr.CR s = false /\ PyStr.mem_char PyStr.DQUOTE s = false.
Proof.
  induction s as [|c r IH]; [done|]. simpl.
  intros [Hc Hr]%andb_prop. destruct (IH Hr) as (H1 & H2 & H3 & H4 & H5).
  rewrite H1, H2, H3, H4, H5, !orb_false_r, andb_true_r.
  unfold Pandas.is_digit, PyStr.in_range in Hc. apply andb_prop in Hc as [Hlo Hhi].
  apply Nat.leb_le in Hlo, Hhi.
  repeat split;
    try (apply Ascii.eqb_neq; intros ->; vm_compute in Hlo; lia).
  apply Nat.ltb_lt. lia.
Qed.

Lemma field_ok_pretty (n : Z) : field_ok (pretty n) = true.
Proof.
  assert (Hd : forall s, Pandas.all_digits s = true -> head_digit s = true ->
                         field_ok s = true /\ field_ok (String "-" s) = true).
  { intros s Ha Hh. destruct (digits_field_chars s Ha) as (H1 & H2 & H3 & H4 & H5).
    destruct s as [|c r]; [discriminate|].
    assert (Hsp : Ascii.eqb c PyStr.SPACE = false).
    { simpl in Hh. unfold Pandas.is_digit, PyStr.in_range in Hh.
      apply andb_prop in Hh as [Hlo _]. apply Nat.leb_le in Hlo.
      apply Ascii.eqb_neq. intros ->. vm_compute in Hlo. lia. }
    unfold field_ok, Pandas.csv_plain, Pandas.nonblank.
    cbn [is_ascii PyStr.mem_char Pandas.only_spaces String.eqb] in *.
    rewrite H1, H2, H3, H4, H5, Hsp. split; reflexivity. }
  destruct n as [|p|p].
  - reflexivity.
  - destruct (natural_literal_pretty p) as (_ & Hh & Ha). by apply Hd.
  - destruct (natural_literal_pretty p) as (_ & Hh & Ha).
    change (pretty (Zneg p)) with (String "-" (pretty (Npos p))).
    by apply Hd.
Qed.

Lemma cell_ok_pretty (n : Z) : int64 n -> cell_ok (pretty n) = true.
Proof.
  intros Hn. unfold cell_ok. rewrite field_ok_pretty, (int_literal_pretty n Hn).
  rewrite (bool_decide_eq_true_2 _ (mk_is_Some _ _ eq_refl)). by rewrite orb_true_r.
Qed.

(** ** Writing a table and reading it back *)

Lemma cell_text_convert k c :
  cell_ok c = true -> Pandas.cell_text (Pandas.convert k c) = Some (render k c).
Proof.
  intros Hc. destruct k; simpl; [reflexivity|].
  apply cell_ok_field in Hc. unfold field_ok in Hc.
  apply andb_prop in Hc as [[_ Hp]%andb_prop _]. by rewrite Hp.
Qed.

Lemma cell_ok_render k c : cell_ok c = true -> cell_ok (render k c) = true.
Proof.
  intros Hc. destruct k; simpl; [|exact Hc]. apply cell_ok_pretty.
  destruct (Pandas.int_literal c) as [n|] eqn:E; simpl.
  - by eapply int_literal_int64.
  - unfold int64. lia.
Qed.

Lemma convert_render k c :
  (k = Pandas.KInt -> is_Some (Pandas.int_literal c)) ->
  Pandas.convert k (render k c) = Pandas.convert k c.
Proof.
  destruct k; simpl; [|reflexivity]. intros H. destruct (H eq_refl) as [n Hn].
  rewrite Hn. simpl. by rewrite (int_literal_pretty n (int_literal_int64 _ _ Hn)).
Qed.

Lemma infer_int cells :
  Pandas.infer cells = Some Pandas.KInt ->
  Forall (fun c => is_Some (Pandas.int_literal c)) cells.
Proof.
  unfold Pandas.infer. destruct (existsb Pandas.is_na cells); [discriminate|].
  destruct (forallb _ cells) eqn:E.
  - intros _. apply Forall_forall. intros c Hc%list_elem_of_In.
    rewrite forallb_forall in E. specialize (E c Hc).
    by apply bool_decide_eq_true in E.
  - destruct (existsb Pandas.plain_text cells); discriminate.
Qed.

Lemma infer_render k cells :
  Pandas.infer cells = Some k -> Pandas.infer (render k <$> cells) = Some k.
Proof.
  intros H. destruct k; [|by rewrite list_fmap_id].
  pose proof (infer_int cells H) as Hint.
  assert (Hall : Forall (fun c => is_Some (Pandas.int_literal c))
                   (render Pandas.KInt <$> cells)).
  { apply Forall_fmap. eapply Forall_impl; [exact Hint|]. intros c [n Hn]. simpl.
    rewrite Hn. simpl. rewrite (int_literal_pretty n (int_literal_int64 _ _ Hn)).
    by eexists. }
  unfold Pandas.infer.
  assert (Hna : existsb Pandas.is_na (render Pandas.KInt <$> cells) = false).
  { clear -Hall. induction Hall as [|c rest Hc _ IH]; [reflexivity|].
    cbn [existsb]. by rewrite IH, (int_literal_not_na c Hc). }
  rewrite Hna.
  assert (Hf : forallb (fun c => bool_decide (is_Some (Pandas.int_literal c)))
                 (render Pandas.KInt <$> cells) = true).
  { apply forallb_forall. intros c Hc%list_elem_of_In.
    rewrite Forall_forall in Hall. by apply bool_decide_eq_true_2, Hall. }
  by rewrite Hf.
Qed.

Lemma mapM_cell_text kinds row :
  Forall (fun c => cell_ok c = true) row ->
  mapM Pandas.cell_text (zip_with Pandas.convert kinds row)
  = Some (zip_with render kinds row).
Proof.
  intros H. revert kinds.
  induction H as [|c row Hc _ IH]; intros [|k kinds]; try reflexivity.
  cbn [zip_with mapM]. rewrite (cell_text_convert k c Hc). cbn [mbind option_bind].
  by rewrite IH.
Qed.

Lemma Forall_zip_with_render kinds row :
  Forall (fun c => cell_ok c = true) row ->
  Forall (fun c => cell_ok c = true) (zip_with render kinds row).
Proof.
  intros H. revert kinds.
  induction H as [|c row Hc _ IH]; intros [|k kinds]; try constructor.
  - by apply cell_ok_render.
  - apply IH.
Qed.

Lemma Forall_scalar_convert kinds row :
  Forall (fun v => Pandas.scalar v = true) (zip_with Pandas.convert kinds row).
Proof.
  revert row. induction kinds as [|k kinds IH]; intros [|c row]; try constructor.
  - by destruct k.
  - apply IH.
Qed.

Lemma column_render (kinds : list Pandas.kind) (rows : list (list string)) j k :
  body_ok (length kinds) rows -> kinds !! j = Some k ->
  Pandas.column j (zip_with render kinds <$> rows) = render k <$> Pandas.column j rows.
Proof.
  intros Hb Hk. unfold Pandas.column.
  change (map ?f ?l) with (f <$> l). rewrite <- !list_fmap_compose.
  apply list_fmap_ext. intros i row Hi. simpl.
  unfold body_ok in Hb. rewrite Forall_lookup in Hb. destruct (Hb i row Hi) as [Hlen _].
  destruct (lookup_lt_is_Some_2 row j) as [c Hc].
  { rewrite Hlen. by eapply lookup_lt_Some. }
  rewrite (nth_lookup_Some _ _ _ _ Hc).
  apply nth_lookup_Some. by rewrite lookup_zip_with, Hk, Hc.
Qed.

Lemma body_ok_render (kinds : list Pandas.kind) (rows : list (list string)) :
  body_ok (length kinds) rows -> body_ok (length kinds) (zip_with render kinds <$> rows).
Proof.
  intros Hb. unfold body_ok. apply Forall_fmap.
  eapply Forall_impl; [exact Hb|]. intros row [Hlen Hrow]. simpl. split.
  - rewrite length_zip_with. lia.
  - by apply Forall_zip_with_render.
Qed.

Lemma infer_rendered (kinds : list Pandas.kind) (rows : list (list string)) :
  body_ok (length kinds) rows ->
  mapM (fun j => Pandas.infer (Pandas.column j rows)) (seq 0 (length kinds)) = Some kinds ->
  mapM (fun j => Pandas.infer (Pandas.column j (zip_with render kinds <$> rows)))
       (seq 0 (length kinds)) = Some kinds.
Proof.
  intros Hb Hk. apply mapM_Some. apply mapM_Some in Hk.
  apply Forall2_same_length_lookup. split; [by rewrite length_seq|].
  intros i j k Hj Hki. apply lookup_seq in Hj as [-> _]. simpl.
  rewrite (column_render kinds rows i k Hb Hki). apply infer_render.
  by eapply (Forall2_lookup_lr _ _ _ i i k Hk); [apply lookup_seq_lt; eapply lookup_lt_Some|].
Qed.

Lemma typed_rendered (kinds : list Pandas.kind) (rows : list (list string)) :
  body_ok (length kinds) rows ->
  mapM (fun j => Pandas.infer (Pandas.column j rows)) (seq 0 (length kinds)) = Some kinds ->
  zip_with Pandas.convert kinds <$> (zip_with render kinds <$> rows)
  = zip_with Pandas.convert kinds <$> rows.
Proof.
  intros Hb Hk. rewrite <- list_fmap_compose. apply list_fmap_ext.
  intros i row Hi. simpl. apply list_eq. intros j.
  rewrite !lookup_zip_with.
  destruct (kinds !! j) as [k|] eqn:Hkj; [|reflexivity]. cbn [mbind option_bind].
  destruct (row !! j) as [c|] eqn:Hc; [|reflexivity]. cbn [mbind option_bind].
  f_equal. apply convert_render. intros ->.
  apply mapM_Some in Hk.
  assert (Hinf : Pandas.infer (Pandas.column j rows) = Some Pandas.KInt).
  { by eapply (Forall2_lookup_lr _ _ _ j j _ Hk);
      [apply lookup_seq_lt; eapply lookup_lt_Some|]. }
  apply infer_int in Hinf. rewrite Forall_forall in Hinf. apply Hinf.
  destruct (column_cells _ _ j Hb) as [_ Hmem]; [by eapply lookup_lt_Some|].
  by eapply Hmem.
Qed.

(** [read_csv] gives back the frame whose [to_csv] text it is given. *)
Lemma read_csv_written names rows kinds :
  header_ok names -> body_ok (length names) rows ->
  mapM (fun j => Pandas.infer (Pandas.column j rows)) (seq 0 (length names)) = Some kinds ->
  Pandas.read_csv (Pandas.csv_lines (names :: (zip_with render kinds <$> rows)))
  = Ok {| Pandas.columns := names;
          Pandas.rows := zip_with Pandas.convert kinds <$> rows |}
  /\ is_ascii (Pandas.csv_lines (names :: (zip_with render kinds <$> rows))) = true.
Proof.
  intros Hh Hb Hk.
  assert (Hlen : length kinds = length names).
  { apply length_mapM in Hk. by rewrite length_seq in Hk. }
  rewrite <- Hlen in *.
  pose proof (body_ok_render kinds rows Hb) as Hb'.
  rewrite Hlen in Hb'.
  destruct (read_csv_csv_lines names _ Hh Hb') as (kinds' & Hk' & Hr).
  rewrite <- Hlen in Hk'. rewrite (infer_rendered kinds rows Hb Hk) in Hk'.
  injection Hk' as <-. split.
  - by rewrite Hr, typed_rendered.
  - apply csv_lines_ascii. by apply table_ok_of.
Qed.

Lemma with_records_list h names typed (ext : list obj) :
  (with_records h names typed ++ ext)%list !! (length h + length typed)%nat
  = Some (OList (VRef <$> seq (length h) (length typed))).
Proof.
  unfold with_records. rewrite <- !app_assoc.
  rewrite lookup_app_r by lia. rewrite lookup_app_r by (rewrite length_fmap; lia).
  rewrite length_fmap.
  by replace (length h + length typed - length h - length typed)%nat with 0%nat by lia.
Qed.

Lemma with_records_dict h names typed (ext : list obj) i row :
  typed !! i = Some row ->
  (with_records h names typed ++ ext)%list !! (length h + i)%nat = Some (ODict (zip names row)).
Proof.
  intros Hi. unfold with_records. rewrite <- !app_assoc.
  rewrite lookup_app_r by lia.
  replace (length h + i - length h)%nat with i by lia.
  apply lookup_app_l_Some. by rewrite list_lookup_fmap, Hi.
Qed.

Lemma records_of_with_records h names typed (ext : list obj) :
  records_of (with_records h names typed ++ ext)%list (VRef (length h + length typed))
  = Some (zip names <$> typed).
Proof.
  unfold records_of, Py.items. cbn [deref]. rewrite with_records_list.
  cbn [mbind option_bind]. apply mapM_Some, Forall2_same_length_lookup.
  split; [by rewrite !length_fmap, length_seq|].
  intros i ref entries Href He.
  rewrite list_lookup_fmap in Href. rewrite list_lookup_fmap in He.
  destruct (typed !! i) as [row|] eqn:Hrow; [|discriminate]. injection He as <-.
  rewrite lookup_seq_lt in Href by (by eapply lookup_lt_Some).
  injection Href as <-. cbn [deref].
  by rewrite (with_records_dict h names typed ext i row Hrow).
Qed.

Lemma frame_of_with_records (w1 : world) (h : list obj) names typed :
  names <> [] -> typed <> [] ->
  Forall (fun row => length row = length names
                     /\ Forall (fun v => Pandas.scalar v = true) row) typed ->
  heap w1 = with_records h names typed ->
  Pandas.DataFrame_of (VRef (length h + length typed)) w1
  = (Ok {| Pandas.columns := names; Pandas.rows := typed |}, w1).
Proof.
  intros Hn Ht Hall Hw.
  pose proof (with_records_list h names typed []) as Hlist.
  assert (Hdict : forall i row, typed !! i = Some row ->
            heap w1 !! (length h + i)%nat = Some (ODict (zip names row))).
  { intros i row Hi. rewrite Hw.
    pose proof (with_records_dict h names typed [] i row Hi) as H.
    by rewrite app_nil_r in H. }
  rewrite app_nil_r, <- Hw in Hlist.
  assert (Hrec : mapM (Pandas.record_at (heap w1) names)
                   (VRef <$> seq (length h) (length typed)) = Some typed).
  { apply mapM_Some, Forall2_same_length_lookup.
    split; [by rewrite length_fmap, length_seq|].
    intros i ref row Href Hrow. rewrite list_lookup_fmap in Href.
    rewrite lookup_seq_lt in Href by (by eapply lookup_lt_Some).
    injection Href as <-. unfold Pandas.record_at. cbn [deref].
    rewrite (Hdict i row Hrow).
    rewrite Forall_lookup in Hall. destruct (Hall i row Hrow) as [Hlen Hsc].
    rewrite fst_zip, snd_zip by lia.
    rewrite bool_decide_eq_true_2 by done.
    assert (Hf : forallb Pandas.scalar row = true).
    { apply forallb_forall. intros v Hv%list_elem_of_In.
      rewrite Forall_forall in Hsc. by apply Hsc. }
    by rewrite Hf. }
  unfold Pandas.DataFrame_of. cbn [deref]. rewrite Hlist.
  destruct typed as [|row0 rest]; [done|].
  cbn [length seq fmap list_fmap] in Hrec |- *. cbn [deref].
  pose proof (Hdict 0%nat row0 eq_refl) as H0. rewrite Nat.add_0_r in H0.
  rewrite H0.
  apply Forall_cons in Hall as [[Hlen0 _] _].
  destruct names as [|n0 names']; [done|].
  destruct row0 as [|v0 row0']; [discriminate|].
  cbn [zip zip_with]. cbn [fmap list_fmap fst].
  change (n0 :: (zip names' row0').*1) with ((zip (n0 :: names') (v0 :: row0')).*1).
  rewrite fst_zip by (rewrite Hlen0; lia).
  by rewrite Hrec.
Qed.

Lemma to_csv_written names kinds rows :
  header_ok names -> body_ok (length names) rows ->
  Pandas.to_csv {| Pandas.columns := names;
                   Pandas.rows := zip_with Pandas.convert kinds <$> rows |}
  = Ok (Pandas.csv_lines (names :: (zip_with render kinds <$> rows))).
Proof.
  intros (Hne & Hnames & _) Hb. unfold Pandas.to_csv. cbn [Pandas.columns Pandas.rows].
  assert (Hp : forallb Pandas.csv_plain names = true).
  { apply forallb_forall. intros c Hc%list_elem_of_In.
    rewrite Forall_forall in Hnames. specialize (Hnames c Hc).
    unfold field_ok in Hnames. by apply andb_prop in Hnames as [[_ ?]%andb_prop _]. }
  assert (Hm : mapM (mapM Pandas.cell_text) (zip_with Pandas.convert kinds <$> rows)
               = Some (zip_with render kinds <$> rows)).
  { apply mapM_Some, Forall2_fmap, Forall_Forall2_diag.
    eapply Forall_impl; [exact Hb|]. intros row [_ Hrow]. by apply mapM_cell_text. }
  destruct names as [|n0 names']; [done|]. by rewrite Hp, Hm.
Qed.

Lemma to_dict_records_with (names : list string) (typed : list (list val)) (w : world) :
  Pandas.to_dict_records {| Pandas.columns := names; Pandas.rows := typed |} w
  = (Ok (VRef (length (heap w) + length typed)),
     set_heap (with_records (heap w) names typed) w).
Proof. by rewrite to_dict_records_ok. Qed.

(** The TSV round trip for a table with at least one data row: the upload is
    read into records, the TSV download of these records is written, and
    reading the download back gives a list of records equal, entry for entry
    and in order, to the first one. *)
Lemma tsv_round_trip_with_rows (w : world) (name : string) (names : list string)
    (rows : list (list string)) :
  PyStr.endswith name ".tsv" = true ->
  header_ok names ->
  body_ok (length names) rows ->
  rows <> [] ->
  exists data w1 out reread w2,
    read_uploaded_file name (Pandas.csv_lines (names :: rows)) w = (Ok data, w1)
    /\ create_download_content data "TSV" w1 = (Ok out, w1)
    /\ read_uploaded_file name out w1 = (Ok reread, w2)
    /\ is_Some (records_of (heap w2) data)
    /\ records_of (heap w2) reread = records_of (heap w2) data.
Proof.
  intros Hn Hh Hb Hrows.
  destruct (read_csv_csv_lines names rows Hh Hb) as (kinds & Hk & Hr).
  set (typed := zip_with Pandas.convert kinds <$> rows) in *.
  assert (Hlen : length kinds = length names).
  { apply length_mapM in Hk. by rewrite length_seq in Hk. }
  assert (Htyped : Forall (fun row => length row = length names
                                      /\ Forall (fun v => Pandas.scalar v = true) row)
                     typed).
  { apply Forall_fmap. eapply Forall_impl; [exact Hb|]. intros row [Hl _]. simpl.
    split; [rewrite length_zip_with; lia | apply Forall_scalar_convert]. }
  assert (Hne : typed <> []) by (unfold typed; by destruct rows).
  pose (w1 := set_heap (with_records (heap w) names typed) w).
  destruct (read_csv_written names rows kinds Hh Hb Hk) as [Hr2 Ha2].
  fold typed in Hr2.
  pose (w2 := set_heap (with_records (heap w1) names typed) w1).
  exists (VRef (length (heap w) + length typed)), w1,
    (Pandas.csv_lines (names :: (zip_with render kinds <$> rows))),
    (VRef (length (heap w1) + length typed)), w2.
  split; [|split; [|split; [|split]]].
  - rewrite (read_uploaded_tsv _ _ _ w Hn
               (csv_lines_ascii _ (table_ok_of _ _ Hh Hb)) Hr).
    apply to_dict_records_with.
  - unfold create_download_content. unfold mbind at 1, M_bind at 1, get_world at 1.
    change (String.eqb (PyStr.lower "TSV") "json") with false.
    change (String.eqb (PyStr.lower "TSV") "tsv") with true.
    assert (Hl : Py.is_list (heap w1) (VRef (length (heap w) + length typed)) = true).
    { unfold Py.is_list. cbn [deref w1 heap set_heap].
      pose proof (with_records_list (heap w) names typed []) as H.
      rewrite app_nil_r in H. by rewrite H. }
    rewrite Hl. cbn [andb]. unfold mbind, M_bind.
    rewrite (frame_of_with_records w1 (heap w) names typed) by (done || apply Hh).
    unfold lift. unfold typed. by rewrite (to_csv_written names kinds rows Hh Hb).
  - rewrite (read_uploaded_tsv _ _ _ w1 Hn Ha2 Hr2). apply to_dict_records_with.
  - cbn [w2 heap set_heap]. unfold with_records at 1. cbn [w1 heap set_heap].
    rewrite records_of_with_records. by eexists.
  - cbn [w2 heap set_heap].
    pose proof (records_of_with_records (heap w1) names typed []) as H2.
    rewrite app_nil_r in H2. rewrite H2.
    unfold with_records at 1. cbn [w1 heap set_heap].
    by rewrite records_of_with_records.
Qed.

(** * Further properties of the page *)

(** ** The preview of a text upload *)

Lemma length_substring_0 (n : nat) (s : string) :
  String.length (substring 0 n s) = Nat.min n (String.length s).
Proof.
  revert s. induction n as [|n IH]; intros [|c s]; simpl; try reflexivity.
  by rewrite IH.
Qed.

Lemma string_length_app (s t : string) :
  String.length (s ++ t) = (String.length s + String.length t)%nat.
Proof. induction s as [|c s IH]; simpl; [reflexivity|]. by rewrite IH. Qed.

Lemma substring_0_app (n : nat) (s t : string) :
  (n <= String.length s)%nat -> substring 0 n (s ++ t) = substring 0 n s.
Proof.
  revert s. induction n as [|n IH]; intros [|c s] H; simpl in *; try reflexivity;
    try lia.
  - by destruct t.
  - rewrite IH by lia. reflexivity.
Qed.

Lemma substring_0_idem (n : nat) (s : string) :
  substring 0 n (substring 0 n s) = substring 0 n s.
Proof.
  revert s. induction n as [|n IH]; intros [|c s]; simpl; try reflexivity.
  by rewrite IH.
Qed.

(** X2. The text preview holds the first 1000 characters of the content as
    they are, and is never longer than 1003 characters: a content of at most
    1000 characters is shown whole, a longer one is cut after 1000 characters
    and followed by three dots. *)
Theorem preview_text_is_bounded (content : string) :
  String.length (preview_text content)
  = (if (1000 <? String.length content)%nat then 1003 else String.length content)%nat
  /\ (String.length (preview_text content) <= 1003)%nat
  /\ substring 0 1000 (preview_text content) = substring 0 1000 content.
Proof.
  unfold preview_text. destruct (1000 <? String.length content)%nat eqn:E.
  - apply Nat.ltb_lt in E.
    assert (Hl : String.length (substring 0 1000 content ++ "...") = 1003%nat).
    { rewrite string_length_app, length_substring_0. simpl String.length. lia. }
    split; [exact Hl|]. split; [lia|].
    rewrite substring_0_app by (rewrite length_substring_0; lia).
    apply substring_0_idem.
  - apply Nat.ltb_ge in E. repeat split. lia.
Qed.

(** ** The read position of the uploaded file *)

Lemma substring_none (n : nat) (s : string) : substring n 0 s = EmptyString.
Proof. revert s. induction n as [|n IH]; intros [|c s]; simpl; auto. Qed.

Lemma substring_whole (s : string) : substring 0 (String.length s) s = s.
Proof. induction s as [|c s IH]; simpl; [reflexivity|]. by rewrite IH. Qed.

Lemma file_read_at_end (f : uploaded_file) :
  (String.length (uf_data f) <= uf_pos f)%nat -> (file_read f).1 = EmptyString.
Proof.
  intros H. unfold file_read. simpl.
  replace (String.length (uf_data f) - uf_pos f)%nat with 0%nat by lia.
  apply substring_none.
Qed.

Lemma read_empty_tsv (name : string) (w : world) :
  PyStr.endswith name ".tsv" = true ->
  read_uploaded_file name EmptyString w = (Raise EmptyDataError, w).
Proof. intros H. unfold read_uploaded_file. by rewrite H. Qed.

(** X3. Ticking the preview box for a text upload does not change what the
    processing step does: the preview reads the file and sets the position
    back, so the processing step reads the whole content again. *)
Theorem text_preview_keeps_processing (f : uploaded_file) (mode : string)
    (params : val) (output_format : option string) :
  PyStr.endswith (uf_name f) ".tsv" = false ->
  is_ascii (uf_data f) = true ->
  uf_pos f = 0%nat ->
  (preview_file true f).1 = Ok (ShownText (preview_text (uf_data f)))
  /\ (preview_file true f).2 = f
  /\ start_processing (preview_file true f).2 mode params output_format
     = start_processing f mode params output_format.
Proof.
  intros Hn Ha Hp. destruct f as [name data pos]. simpl in *. subst pos.
  unfold preview_file, file_read. simpl. rewrite Hn, Nat.sub_0_r, substring_whole.
  unfold decode_utf8. rewrite Ha. simpl. repeat split.
Qed.

Lemma text_preview_keeps_processing_witness :
  (preview_file true {| uf_name := "notes.txt"; uf_data := "In the beginning"; uf_pos := 0 |}).2
  = {| uf_name := "notes.txt"; uf_data := "In the beginning"; uf_pos := 0 |}.
Proof.
  apply (text_preview_keeps_processing
           {| uf_name := "notes.txt"; uf_data := "In the beginning"; uf_pos := 0 |}
           "Custom Processing" VNone None eq_refl eq_refl eq_refl).
Defined.

(** X4. Ticking the preview box for a [.tsv] upload breaks the processing
    step of the same run: pandas has read the file object to its end and the
    position is not set back, so the processing step reads nothing, pandas
    raises EmptyDataError, and the page reports a failure, whatever the file
    holds and whatever the mode is. *)
Theorem tsv_preview_breaks_processing (f : uploaded_file) (mode : string)
    (params : val) (output_format : option string) (w : world) :
  PyStr.endswith (uf_name f) ".tsv" = true ->
  (preview_file true f).1 <> Beyond ->
  (start_processing (preview_file true f).2 mode params output_format).1 w
  = (Ok (Failed (Raised EmptyDataError)), w).
Proof.
  intros Hn Hb.
  assert (Hf : (preview_file true f).2 = (file_read f).2).
  { unfold preview_file. destruct (file_read f) as [bytes f1]. rewrite Hn.
    destruct (decode_utf8 bytes) as [text| |]; try reflexivity.
    by destruct (Pandas.read_csv text). }
  rewrite Hf. unfold start_processing.
  pose proof (file_read_at_end (file_read f).2) as He.
  destruct (file_read (file_read f).2) as [bytes f2] eqn:E. simpl in He |- *.
  rewrite He by lia. unfold try_except.
  unfold mbind at 1, M_bind at 1. by rewrite (read_empty_tsv _ w Hn).
Qed.

Lemma tsv_preview_breaks_processing_witness :
  (start_processing
     (preview_file true {| uf_name := "upload.tsv"; uf_data := duplicate_tsv; uf_pos := 0 |}).2
     MODE_QUALITY VNone None).1 empty_world
  = (Ok (Failed (Raised EmptyDataError)), empty_world).
Proof.
  apply (tsv_preview_breaks_processing
           {| uf_name := "upload.tsv"; uf_data := duplicate_tsv; uf_pos := 0 |}
           MODE_QUALITY VNone None empty_world eq_refl).
  vm_compute. discriminate.
Defined.

(** ** The order of the script *)

(** X1. The processing step never reaches the results.  The helper
    functions are defined at the end of the script, below the code of the
    button, and the script starts from an empty namespace on every run: once
    the upload is read, the call of [process_bible_data] raises NameError,
    which the [except] clause catches.  So a click on the button ends in the
    error message for every upload, mode and parameters: with the error of
    the upload step when the file cannot be read, with the NameError
    otherwise.  No result is shown and no download is offered. *)
Theorem processing_stops_at_helper_call (f : uploaded_file) (mode : string)
    (params : val) (output_format : option string) (w : world) :
  (start_processing f mode params output_format).1 w
  = match read_uploaded_file (uf_name f) (file_read f).1 w with
    | (Ok _, w') => (Ok (Failed (NameError "process_bible_data")), w')
    | (Raise e, w') => (Ok (Failed (Raised e)), w')
    | (Beyond, w') => (Beyond, w')
    end
  /\ (forall sections file w',
        (start_processing f mode params output_format).1 w
        <> (Ok (Completed sections file), w')).
Proof.
  assert (E : (start_processing f mode params output_format).1 w
              = match read_uploaded_file (uf_name f) (file_read f).1 w with
                | (Ok _, w') => (Ok (Failed (NameError "process_bible_data")), w')
                | (Raise e, w') => (Ok (Failed (Raised e)), w')
                | (Beyond, w') => (Beyond, w')
                end).
  { unfold start_processing. destruct (file_read f) as [bytes f1]. cbn [fst].
    unfold try_except. unfold mbind at 1, M_bind at 1.
    change (bound_before 133 "process_bible_data") with false. cbv iota.
    by destruct (read_uploaded_file (uf_name f) bytes w) as [[data|e|] w1]. }
  split; [exact E|]. intros sections file w'. rewrite E.
  by destruct (read_uploaded_file (uf_name f) (file_read f).1 w) as [[data|e|] w1].
Qed.

(** ** Blank uploads *)

Lemma split_line_feeds (s : string) :
  only_line_feeds s = true ->
  Forall (fun l => l = EmptyString) (PyStr.split PyStr.LF s).
Proof.
  induction s as [|c r IH]; simpl; [by repeat constructor|].
  intros [Hc Hr]%andb_prop. rewrite Hc. constructor; [reflexivity|by apply IH].
Qed.

Lemma line_feeds_chars (s : string) (c : ascii) :
  only_line_feeds s = true -> c <> PyStr.LF -> PyStr.mem_char c s = false.
Proof.
  intros Hs Hc. induction s as [|d r IH]; simpl in *; [reflexivity|].
  apply andb_prop in Hs as [Hd Hr]. apply Ascii.eqb_eq in Hd. subst d.
  rewrite IH by done. by destruct (Ascii.eqb_spec PyStr.LF c) as [<-|].
Qed.

Lemma line_feeds_ascii (s : string) : only_line_feeds s = true -> is_ascii s = true.
Proof.
  induction s as [|d r IH]; simpl; [reflexivity|].
  intros [Hd Hr]%andb_prop. apply Ascii.eqb_eq in Hd. subst d. by rewrite IH.
Qed.

Lemma blank_lines (lines : list string) :
  Forall (fun l => l = EmptyString) lines ->
  existsb (fun l => Pandas.nonblank l && Pandas.only_spaces l) lines = false
  /\ filter (fun l => Pandas.nonblank l = true) lines = [].
Proof.
  induction 1 as [|l ls -> _ [IH1 IH2]]; [done|].
  cbn [existsb]. rewrite IH1. split; [reflexivity|].
  rewrite filter_cons_False; [exact IH2|]. discriminate.
Qed.

(** X5. A [.tsv] upload that holds no line but blank ones (no byte at all,
    or line feeds only) is not read as an empty table: pandas raises
    EmptyDataError, and nothing is added to the store. *)
Theorem blank_tsv_upload_raises (name content : string) (w : world) :
  PyStr.endswith name ".tsv" = true ->
  only_line_feeds content = true ->
  read_uploaded_file name content w = (Raise EmptyDataError, w).
Proof.
  intros Hn Hc. unfold read_uploaded_file, decode_utf8.
  rewrite Hn, (line_feeds_ascii _ Hc). run.
  unfold Pandas.read_csv, Pandas.tokenize.
  rewrite !(line_feeds_chars _ _ Hc) by discriminate. cbn [orb].
  destruct (blank_lines _ (split_line_feeds _ Hc)) as [-> ->]. reflexivity.
Qed.

Lemma blank_tsv_upload_raises_witness :
  read_uploaded_file "upload.tsv" (String PyStr.LF (String PyStr.LF EmptyString)) empty_world
  = (Raise EmptyDataError, empty_world).
Proof.
  apply (blank_tsv_upload_raises "upload.tsv"
           (String PyStr.LF (String PyStr.LF EmptyString)) empty_world eq_refl eq_refl).
Defined.

(** ** A table upload, its count and its TSV download *)

Lemma kinds_of_table names rows :
  header_ok names -> body_ok (length names) rows ->
  exists kinds,
    mapM (fun j => Pandas.infer (Pandas.column j rows)) (seq 0 (length names)) = Some kinds
    /\ length kinds = length names.
Proof.
  intros Hh Hb. destruct (read_csv_csv_lines names rows Hh Hb) as (kinds & Hk & _).
  exists kinds. split; [exact Hk|]. apply length_mapM in Hk. by rewrite length_seq in Hk.
Qed.

Lemma tsv_upload_read (w : world) name names rows kinds :
  PyStr.endswith name ".tsv" = true ->
  header_ok names -> body_ok (length names) rows ->
  mapM (fun j => Pandas.infer (Pandas.column j rows)) (seq 0 (length names)) = Some kinds ->
  read_uploaded_file name (Pandas.csv_lines (names :: rows)) w
  = (Ok (VRef (length (heap w) + length rows)),
     set_heap (with_records (heap w) names (zip_with Pandas.convert kinds <$> rows)) w).
Proof.
  intros Hn Hh Hb Hk.
  destruct (read_csv_csv_lines names rows Hh Hb) as (kinds' & Hk' & Hr).
  rewrite Hk in Hk'. injection Hk' as <-.
  rewrite (read_uploaded_tsv _ _ _ w Hn (csv_lines_ascii _ (table_ok_of _ _ Hh Hb)) Hr).
  by rewrite to_dict_records_with, length_fmap.
Qed.

Lemma tsv_download_written (w1 : world) (h : list obj) names rows kinds fmt :
  PyStr.lower fmt = "tsv" ->
  header_ok names -> body_ok (length names) rows -> rows <> [] ->
  length kinds = length names ->
  heap w1 = with_records h names (zip_with Pandas.convert kinds <$> rows) ->
  create_download_content (VRef (length h + length rows)) fmt w1
  = (Ok (Pandas.csv_lines (names :: (zip_with render kinds <$> rows))), w1).
Proof.
  intros Hf Hh Hb Hrows Hkl Hw.
  set (typed := zip_with Pandas.convert kinds <$> rows) in *.
  assert (Hlen : length typed = length rows) by (unfold typed; by rewrite length_fmap).
  rewrite <- Hlen.
  assert (Htyped : Forall (fun row => length row = length names
                                      /\ Forall (fun v => Pandas.scalar v = true) row)
                     typed).
  { apply Forall_fmap. eapply Forall_impl; [exact Hb|]. intros row [Hl _]. simpl.
    split; [rewrite length_zip_with; lia | apply Forall_scalar_convert]. }
  assert (Hne : typed <> []) by (unfold typed; by destruct rows).
  rewrite create_download_content_tsv; [|exact Hf|].
  - unfold mbind, M_bind.
    rewrite (frame_of_with_records w1 h names typed) by (done || apply Hh).
    unfold lift, typed. by rewrite (to_csv_written names kinds rows Hh Hb).
  - unfold Py.is_list. cbn [deref]. rewrite Hw.
    pose proof (with_records_list h names typed []) as H.
    rewrite app_nil_r in H. by rewrite H.
Qed.

Lemma rendered_canonical (kinds : list Pandas.kind) (rows : list (list string)) :
  body_ok (length kinds) rows ->
  mapM (fun j => Pandas.infer (Pandas.column j rows)) (seq 0 (length kinds)) = Some kinds ->
  Forall (Forall (fun c => canonical c = true)) rows ->
  zip_with render kinds <$> rows = rows.
Proof.
  intros Hb Hk Hc. rewrite <- (list_fmap_id rows) at 2. apply list_fmap_ext.
  intros i row Hi. simpl. apply list_eq. intros j.
  rewrite lookup_zip_with.
  unfold body_ok in Hb. rewrite Forall_lookup in Hb.
  destruct (Hb i row Hi) as [Hlen _].
  destruct (kinds !! j) as [k|] eqn:Hkj; cbn [mbind option_bind].
  - destruct (row !! j) as [c|] eqn:Hcj; [|reflexivity]. cbn [mbind option_bind].
    f_equal. destruct k; [|reflexivity]. simpl.
    apply mapM_Some in Hk.
    assert (Hinf : Pandas.infer (Pandas.column j rows) = Some Pandas.KInt).
    { by eapply (Forall2_lookup_lr _ _ _ j j _ Hk);
        [apply lookup_seq_lt; eapply lookup_lt_Some|]. }
    apply infer_int in Hinf. rewrite Forall_forall in Hinf.
    assert (Hin : c ∈ Pandas.column j rows).
    { unfold Pandas.column. change (map ?f ?l) with (f <$> l).
      apply list_elem_of_fmap. exists row. split.
      - symmetry. by apply nth_lookup_Some.
      - by eapply list_elem_of_lookup_2. }
    destruct (Hinf c Hin) as [n Hn]. rewrite Hn. simpl.
    rewrite Forall_lookup in Hc. specialize (Hc i row Hi).
    rewrite Forall_lookup in Hc. specialize (Hc j c Hcj). simpl in Hc.
    unfold canonical in Hc. rewrite Hn in Hc. by apply String.eqb_eq in Hc.
  - symmetry. apply lookup_ge_None. apply lookup_ge_None in Hkj. lia.
Qed.

(** X6. The count of a table upload is its number of data lines.  Take a
    [.tsv] upload made of a header line and [n] data lines, every line ended
    by a line feed, with a header of the kind [header_ok] and data lines of
    the kind [body_ok] (as many fields as the header, each a cell of the
    kind [cell_ok]).  Reading it and passing the records to
    [process_bible_data], with a dict of parameters, gives
    [total_entries = n] in every mode: the header line is not counted, and
    an upload without data lines counts 0. *)
Theorem tsv_upload_counts_rows (w : world) (name : string) (names : list string)
    (rows : list (list string)) (mode : string) (params : val) :
  PyStr.endswith name ".tsv" = true ->
  header_ok names ->
  body_ok (length names) rows ->
  Py.is_dict (heap w) params = true ->
  exists data w1 r st w2,
    read_uploaded_file name (Pandas.csv_lines (names :: rows)) w = (Ok data, w1)
    /\ process_bible_data data mode params w1 = (Ok r, w2)
    /\ Py.getitem (heap w2) r "statistics" = Some st
    /\ Py.getitem (heap w2) st "total_entries" = Some (VInt (Z.of_nat (length rows))).
Proof.
  intros Hn Hh Hb Hd.
  destruct (kinds_of_table names rows Hh Hb) as (kinds & Hk & Hkl).
  set (typed := zip_with Pandas.convert kinds <$> rows).
  pose (w1 := set_heap (with_records (heap w) names typed) w).
  destruct (is_dict_entries _ _ Hd) as [es He].
  assert (He1 : deref (heap w1) params = Some (ODict es)).
  { cbn [w1 heap set_heap]. unfold with_records. by apply deref_app. }
  assert (Hcount : entry_count (heap w1) (VRef (length (heap w) + length rows))
                   = Z.of_nat (length rows)).
  { unfold entry_count, Py.items. cbn [deref w1 heap set_heap].
    pose proof (with_records_list (heap w) names typed []) as H.
    assert (Hlen : length typed = length rows) by (unfold typed; by rewrite length_fmap).
    rewrite app_nil_r, Hlen in H. rewrite H. by rewrite length_fmap, length_seq. }
  exists (VRef (length (heap w) + length rows)), w1.
  destruct (mode_cases mode) as [->|[->|[H1 H2]]];
    [ rewrite (run_analysis w1 _ _ _ He1)
    | rewrite (run_quality w1 _ _ _ He1)
    | rewrite (run_other w1 _ _ _ H1 H2) ];
    (eexists _, (VRef (length (heap w1))), _;
     split; [by apply tsv_upload_read|]; split; [reflexivity|];
     cbn [heap set_heap]; split;
     [ item_at 1%nat | rewrite <- Hcount; item_at 0%nat ]).
Qed.

Lemma tsv_upload_counts_rows_witness :
  exists data w1 r st w2,
    read_uploaded_file "upload.tsv"
      (Pandas.csv_lines [["Book"; "Chapter"]; ["Genesis"; "1"]; ["Exodus"; "2"]])
      {| heap := [ODict []]; requests := [] |} = (Ok data, w1)
    /\ process_bible_data data "Custom Processing" (VRef 0) w1 = (Ok r, w2)
    /\ Py.getitem (heap w2) r "statistics" = Some st
    /\ Py.getitem (heap w2) st "total_entries" = Some (VInt 2).
Proof.
  assert (Hh : header_ok ["Book"; "Chapter"]).
  { split; [discriminate|]. split; [repeat constructor|].
    apply (bool_decide_unpack _). vm_compute. exact I. }
  assert (Hb : body_ok 2 [["Genesis"; "1"]; ["Exodus"; "2"]]).
  { repeat constructor. }
  apply (tsv_upload_counts_rows {| heap := [ODict []]; requests := [] |} "upload.tsv"
           ["Book"; "Chapter"] [["Genesis"; "1"]; ["Exodus"; "2"]]
           "Custom Processing" (VRef 0) eq_refl Hh Hb eq_refl).
Defined.

(** X7. A table in written form comes back byte for byte.  Take a [.tsv]
    upload made of a header line and at least one data line, every line, the
    last one too, ended by a line feed, with a header of the kind
    [header_ok] and data lines of the kind [body_ok].  When every cell that
    is an integer is written as [str] prints it ([canonical]: no leading
    zero, no minus zero), the TSV download of its records is the upload
    itself. *)
Theorem canonical_tsv_download_is_the_upload (w : world) (name : string)
    (names : list string) (rows : list (list string)) (format_type : string) :
  PyStr.endswith name ".tsv" = true ->
  PyStr.lower format_type = "tsv" ->
  header_ok names ->
  body_ok (length names) rows ->
  rows <> [] ->
  Forall (Forall (fun c => canonical c = true)) rows ->
  exists data w1,
    read_uploaded_file name (Pandas.csv_lines (names :: rows)) w = (Ok data, w1)
    /\ create_download_content data format_type w1
       = (Ok (Pandas.csv_lines (names :: rows)), w1).
Proof.
  intros Hn Hf Hh Hb Hrows Hc.
  destruct (kinds_of_table names rows Hh Hb) as (kinds & Hk & Hkl).
  eexists _, _. split; [by apply tsv_upload_read|].
  rewrite (tsv_download_written _ (heap w) names rows kinds format_type)
    by (done || reflexivity).
  rewrite <- Hkl in Hb, Hk. by rewrite (rendered_canonical kinds rows Hb Hk Hc).
Qed.

Lemma canonical_tsv_download_is_the_upload_witness :
  exists data w1,
    read_uploaded_file "upload.tsv" duplicate_tsv empty_world = (Ok data, w1)
    /\ create_download_content data "TSV" w1 = (Ok duplicate_tsv, w1).
Proof.
  assert (Hb : body_ok 4 [["Genesis"; "1"; "1"; "In the beginning"];
                          ["Genesis"; "1"; "1"; "Variant reading"]]).
  { repeat constructor. }
  apply (canonical_tsv_download_is_the_upload empty_world "upload.tsv" REQUIRED_COLUMNS
           [["Genesis"; "1"; "1"; "In the beginning"];
            ["Genesis"; "1"; "1"; "Variant reading"]] "TSV"
           eq_refl eq_refl required_columns_ok Hb).
  - discriminate.
  - repeat constructor.
Defined.

(** X8. Converting twice changes nothing more.  Take a [.tsv] upload made
    of a header line and at least one data line, every line ended by a line
    feed, with a header of the kind [header_ok] and data lines of the kind
    [body_ok] (cells that are 64-bit integers or text starting with a
    letter).  Its TSV download, uploaded again and downloaded again as TSV,
    is the same text: the first conversion writes the integers as [str]
    prints them, and the second one finds nothing to change. *)
Theorem tsv_conversion_is_idempotent (w : world) (name : string)
    (names : list string) (rows : list (list string)) (format_type : string) :
  PyStr.endswith name ".tsv" = true ->
  PyStr.lower format_type = "tsv" ->
  header_ok names ->
  body_ok (length names) rows ->
  rows <> [] ->
  exists data w1 out data' w2,
    read_uploaded_file name (Pandas.csv_lines (names :: rows)) w = (Ok data, w1)
    /\ create_download_content data format_type w1 = (Ok out, w1)
    /\ read_uploaded_file name out w1 = (Ok data', w2)
    /\ create_download_content data' format_type w2 = (Ok out, w2).
Proof.
  intros Hn Hf Hh Hb Hrows.
  destruct (kinds_of_table names rows Hh Hb) as (kinds & Hk & Hkl).
  destruct (read_csv_written names rows kinds Hh Hb Hk) as [Hr2 Ha2].
  set (typed := zip_with Pandas.convert kinds <$> rows) in *.
  pose (w1 := set_heap (with_records (heap w) names typed) w).
  pose (w2 := set_heap (with_records (heap w1) names typed) w1).
  exists (VRef (length (heap w) + length rows)), w1,
    (Pandas.csv_lines (names :: (zip_with render kinds <$> rows))),
    (VRef (length (heap w1) + length rows)), w2.
  split; [by apply tsv_upload_read|]. split; [|split].
  - by apply tsv_download_written.
  - rewrite (read_uploaded_tsv _ _ _ w1 Hn Ha2 Hr2).
    rewrite to_dict_records_with. unfold typed. by rewrite length_fmap.
  - by apply tsv_download_written.
Qed.

Lemma tsv_conversion_is_idempotent_witness :
  exists data w1 out data' w2,
    read_uploaded_file "upload.tsv"
      (Pandas.csv_lines [["Book"; "Chapter"]; ["Genesis"; "007"]]) empty_world
    = (Ok data, w1)
    /\ create_download_content data "TSV" w1 = (Ok out, w1)
    /\ read_uploaded_file "upload.tsv" out w1 = (Ok data', w2)
    /\ create_download_content data' "TSV" w2 = (Ok out, w2).
Proof.
  assert (Hh : header_ok ["Book"; "Chapter"]).
  { split; [discriminate|]. split; [repeat constructor|].
    apply (bool_decide_unpack _). vm_compute. exact I. }
  assert (Hb : body_ok 2 [["Genesis"; "007"]]).
  { repeat constructor. }
  apply (tsv_conversion_is_idempotent empty_world "upload.tsv" ["Book"; "Chapter"]
           [["Genesis"; "007"]] "TSV" eq_refl eq_refl Hh Hb).
  discriminate.
Defined.




(** ** Text through the helper functions *)

(** X10. Text is handed back as it came.  A text upload (any name that
    does not end in [.tsv]) passed through [process_bible_data] in any mode
    and then to the download step in any output format but JSON gives the
    uploaded text itself: TSV, USFM, Markdown and XML convert nothing. *)
Theorem text_upload_is_echoed (w : world) (name content mode : string)
    (params : val) (output_format : option string) :
  PyStr.endswith name ".tsv" = false ->
  is_ascii content = true ->
  Py.is_dict (heap w) params = true ->
  String.eqb (PyStr.lower (default "txt" output_format)) "json" = false ->
  exists r w1,
    read_uploaded_file name content w = (Ok (VStr content), w)
    /\ process_bible_data (VStr content) mode params w = (Ok r, w1)
    /\ download r output_format w1 = (Ok (Some content), w1).
Proof.
  intros Hn Ha Hd Hj. destruct (is_dict_entries _ _ Hd) as [es He].
  assert (Hread : read_uploaded_file name content w = (Ok (VStr content), w)).
  { unfold read_uploaded_file, decode_utf8. rewrite Hn, Ha. reflexivity. }
  assert (Hdl : forall w1 r,
             Py.getitem (heap w1) r "processed_data" = Some (VStr content) ->
             download r output_format w1 = (Ok (Some content), w1)).
  { intros w1 r Hg. unfold download. run. rewrite Hg.
    unfold create_download_content. run. rewrite Hj.
    change (Py.is_list (heap w1) (VStr content)) with false.
    by rewrite andb_false_r. }
  destruct (mode_cases mode) as [->|[->|[H1 H2]]];
    [ rewrite (run_analysis _ _ _ _ He)
    | rewrite (run_quality _ _ _ _ He)
    | rewrite (run_other _ _ _ _ H1 H2) ];
    (eexists _, _; split; [exact Hread|]; split; [reflexivity|];
     apply Hdl; cbn [heap set_heap]; item_at 1%nat).
Qed.

Lemma text_upload_is_echoed_witness :
  exists r w1,
    read_uploaded_file "notes.usfm" "\v 1 In the beginning"
      {| heap := [ODict []]; requests := [] |}
    = (Ok (VStr "\v 1 In the beginning"), {| heap := [ODict []]; requests := [] |})
    /\ process_bible_data (VStr "\v 1 In the beginning") "Format Conversion" (VRef 0)
         {| heap := [ODict []]; requests := [] |} = (Ok r, w1)
    /\ download r (Some "XML") w1 = (Ok (Some "\v 1 In the beginning"), w1).
Proof.
  apply (text_upload_is_echoed {| heap := [ODict []]; requests := [] |}
           "notes.usfm" "\v 1 In the beginning" "Format Conversion" (VRef 0)
           (Some "XML") eq_refl eq_refl eq_refl eq_refl).
Defined.

(** ** The parameters *)

Ltac new_at k :=
  rewrite lookup_app_r by lia;
  match goal with
  | |- _ !! ?i = _ => replace i with k by lia
  end;
  reflexivity.

(** X11. Translation Analysis copies three parameters and checks none.
    The result gets a fourth entry, [analysis], after the three common ones;
    its source and target language are the values under [source_lang] and
    [target_lang], whatever they are, or the text [Unknown] when the key is
    missing; its analysis types are the very object under [analysis_type],
    not a copy, or a new empty list.  There is no quality report. *)
Theorem analysis_copies_parameters (w : world) (data params : val)
    (es : list (string * val)) :
  deref (heap w) params = Some (ODict es) ->
  exists r a w1,
    process_bible_data data MODE_ANALYSIS params w = (Ok r, w1)
    /\ keys (heap w1) (Some r)
       = Some ["summary"; "processed_data"; "statistics"; "analysis"]
    /\ Py.getitem (heap w1) r "analysis" = Some a
    /\ keys (heap w1) (Some a)
       = Some ["source_language"; "target_language"; "analysis_types"]
    /\ Py.getitem (heap w1) a "source_language"
       = Some (default (VStr "Unknown") (Py.assoc "source_lang" es))
    /\ Py.getitem (heap w1) a "target_language"
       = Some (default (VStr "Unknown") (Py.assoc "target_lang" es))
    /\ match Py.assoc "analysis_type" es with
       | Some v => Py.getitem (heap w1) a "analysis_types" = Some v
       | None =>
           exists l, Py.getitem (heap w1) a "analysis_types" = Some (VRef l)
                     /\ heap w1 !! l = Some (OList [])
                     /\ (length (heap w) <= l)%nat
       end
    /\ Py.getitem (heap w1) r "quality_report" = None.
Proof.
  intros He. rewrite (run_analysis _ _ _ _ He).
  eexists _, (VRef (3 + length (heap w))), _. split; [reflexivity|].
  cbn [heap set_heap].
  repeat split.
  - erewrite keys_at; cycle 1; [new_at 1%nat|reflexivity].
  - by item_at 1%nat.
  - erewrite keys_at; cycle 1; [new_at 3%nat|reflexivity].
  - by item_at 3%nat.
  - by item_at 3%nat.
  - destruct (Py.assoc "analysis_type" es) as [v|] eqn:E.
    + by item_at 3%nat.
    + exists (2 + length (heap w))%nat. split; [|split].
      * by item_at 3%nat.
      * new_at 2%nat.
      * lia.
  - by item_at 1%nat.
Qed.

Lemma analysis_copies_parameters_witness :
  exists r a w1,
    process_bible_data (VStr "text") MODE_ANALYSIS (VRef 0)
      {| heap := [ODict [("source_lang", VStr "Greek")]]; requests := [] |} = (Ok r, w1)
    /\ Py.getitem (heap w1) r "analysis" = Some a
    /\ Py.getitem (heap w1) a "source_language" = Some (VStr "Greek")
    /\ Py.getitem (heap w1) a "target_language" = Some (VStr "Unknown").
Proof.
  destruct (analysis_copies_parameters
              {| heap := [ODict [("source_lang", VStr "Greek")]]; requests := [] |}
              (VStr "text") (VRef 0) [("source_lang", VStr "Greek")] eq_refl)
    as (r & a & w1 & H1 & _ & H3 & _ & H5 & H6 & _).
  exists r, a, w1. repeat split; assumption.
Defined.

(** X12. The other modes never look at the parameters.  When the mode is
    neither [Translation Analysis] nor [Quality Check], spelled exactly so,
    the call is the same for any two values of [params], dict or not; it
    returns, and the result has the three common entries only. *)
Theorem other_modes_ignore_params (w : world) (data : val) (mode : string)
    (params params' : val) :
  mode <> MODE_ANALYSIS ->
  mode <> MODE_QUALITY ->
  process_bible_data data mode params w = process_bible_data data mode params' w
  /\ exists r w1,
       process_bible_data data mode params w = (Ok r, w1)
       /\ keys (heap w1) (Some r) = Some ["summary"; "processed_data"; "statistics"].
Proof.
  intros H1%String.eqb_neq H2%String.eqb_neq.
  rewrite !(run_other _ _ _ _ H1 H2). split; [reflexivity|].
  eexists _, _. split; [reflexivity|].
  unfold keys. cbn [mbind option_bind deref heap set_heap].
  rewrite lookup_app_r by lia.
  by replace (S (length (heap w)) - length (heap w))%nat with 1%nat by lia.
Qed.

Lemma other_modes_ignore_params_witness :
  process_bible_data (VStr "text") "quality check" VNone empty_world
  = process_bible_data (VStr "text") "quality check" (VInt 7) empty_world.
Proof.
  apply (other_modes_ignore_params empty_world (VStr "text") "quality check"
           VNone (VInt 7)); discriminate.
Defined.

(** X13. In the two modes that read the parameters, parameters that are
    no dict make the call fail.  The method [get] is looked up on [params]
    after the common part of the result is built: the call raises
    AttributeError, returns nothing, and the objects that were in the store
    before the call are as they were. *)
Theorem params_without_get_raise (w : world) (data : val) (mode : string)
    (params : val) :
  mode = MODE_ANALYSIS \/ mode = MODE_QUALITY ->
  val_in (heap w) params ->
  Py.is_dict (heap w) params = false ->
  exists w1,
    process_bible_data data mode params w = (Raise AttributeError, w1)
    /\ heap w `prefix_of` heap w1
    /\ requests w1 = requests w.
Proof.
  intros Hm Hv Hd.
  assert (Hd' : forall ext : list obj, Py.is_dict (heap w ++ ext) params = false).
  { intros ext. unfold Py.is_dict in *. destruct params as [| | | |l]; try reflexivity.
    cbn [deref] in *. rewrite lookup_app_l by (by apply Hv). exact Hd. }
  unfold process_bible_data. unfold mbind at 1, M_bind at 1.
  rewrite total_entries_ok.
  unfold mbind at 1, M_bind at 1. unfold alloc at 1.
  unfold mbind at 1, M_bind at 1. unfold alloc at 1.
  unfold mbind at 1, M_bind at 1.
  destruct Hm as [-> | ->].
  - change (String.eqb MODE_ANALYSIS MODE_ANALYSIS) with true. cbv iota.
    unfold mbind at 1, M_bind at 1.
    rewrite get_no_dict.
    + eexists. split; [reflexivity|]. cbn [heap set_heap requests].
      split; [|reflexivity]. rewrite <- app_assoc. by apply prefix_app_r.
    + cbn [heap set_heap]. rewrite <- app_assoc. apply Hd'.
  - change (String.eqb MODE_QUALITY MODE_ANALYSIS) with false.
    change (String.eqb MODE_QUALITY MODE_QUALITY) with true. cbv iota.
    unfold mbind at 1, M_bind at 1.
    rewrite get_no_dict.
    + eexists. split; [reflexivity|]. cbn [heap set_heap requests].
      split; [|reflexivity]. rewrite <- app_assoc. by apply prefix_app_r.
    + cbn [heap set_heap]. rewrite <- app_assoc. apply Hd'.
Qed.

Lemma params_without_get_raise_witness :
  exists w1,
    process_bible_data (VStr "text") MODE_QUALITY VNone empty_world
    = (Raise AttributeError, w1)
    /\ heap empty_world `prefix_of` heap w1
    /\ requests w1 = requests empty_world.
Proof.
  apply (params_without_get_raise empty_world (VStr "text") MODE_QUALITY VNone).
  - right. reflexivity.
  - intros l Hl. discriminate Hl.
  - reflexivity.
Defined.

(** ** The formats of the download *)

(** C10. [create_download_content] lower-cases the format and knows two
    structured outputs.
    - [json], in any letter case: the result is that of
      [json.dumps(data, indent=2)], which finishes on every value, and the
      store is untouched; a text comes out quoted and escaped, not as it is.
    - [tsv], in any letter case, with a list: the result is the [to_csv] text
      of the frame built from the list; for the records of a table with at
      least one row this is the header line and one line per record.
    - Every other format, and [tsv] with data that is no list: the result
      is [str(data)]; the call does not raise and the store is untouched.
      This covers [xml], [usfm], [markdown] and [txt] in any letter case. *)
Theorem create_download_content_formats (w : world) (data : val)
    (format_type : string) :
  (PyStr.lower format_type = "json" ->
     (exists r,
        Json.dumps_fuel (S (length (heap w))) [] 2 0 (heap w) data = Some r
        /\ create_download_content data format_type w = (r, w))
     /\ (forall s, data = VStr s ->
           create_download_content data format_type w
           = (Ok (Json.encode_string s), w)))
  /\ (PyStr.lower format_type = "tsv" ->
      Py.is_list (heap w) data = true ->
      create_download_content data format_type w
      = (df ← Pandas.DataFrame_of data; lift (Pandas.to_csv df)) w
      /\ (forall h names rows kinds,
            header_ok names ->
            body_ok (length names) rows ->
            rows <> [] ->
            length kinds = length names ->
            heap w = with_records h names (zip_with Pandas.convert kinds <$> rows) ->
            data = VRef (length h + length rows) ->
            create_download_content data format_type w
            = (Ok (Pandas.csv_lines (names :: (zip_with render kinds <$> rows))), w)))
  /\ (String.eqb (PyStr.lower format_type) "json" = false ->
      String.eqb (PyStr.lower format_type) "tsv" && Py.is_list (heap w) data = false ->
      create_download_content data format_type w = (Ok (Py.str (heap w) data), w)
      /\ (forall l, data = VRef l ->
            Py.repr_fuel (S (length (heap w))) [] (heap w) data
            = Some (Py.str (heap w) data))).
Proof.
  split; [|split].
  - intros Hj. rewrite (create_download_content_json _ _ _ Hj). split.
    + destruct (dumps_total data 2 w) as (r & Hr & Hf). exists r. by split.
    + by intros s ->.
  - intros Ht Hl. split; [by apply create_download_content_tsv|].
    intros h names rows kinds Hh Hb Hne Hk Hw ->. by apply tsv_download_written.
  - intros Hj Ht. split.
    + unfold create_download_content. run. by rewrite Hj, Ht.
    + intros l ->. apply repr_total.
Qed.

Lemma create_download_content_formats_witness :
  create_download_content (VStr "a") "JSON" empty_world
  = (Ok (Json.encode_string "a"), empty_world)
  /\ create_download_content (VRef 1) "Tsv"
       {| heap := [ODict [("Book", VStr "Genesis")]; OList [VRef 0]]; requests := [] |}
     = (Ok (Pandas.csv_lines [["Book"]; ["Genesis"]]),
        {| heap := [ODict [("Book", VStr "Genesis")]; OList [VRef 0]]; requests := [] |})
  /\ create_download_content (VRef 0) "XML"
       {| heap := [OList [VInt 1; VStr "a"]]; requests := [] |}
     = (Ok "[1, 'a']", {| heap := [OList [VInt 1; VStr "a"]]; requests := [] |})
  /\ create_download_content (VStr "a") "Tsv" empty_world = (Ok "a", empty_world).
Proof.
  assert (Hh : header_ok ["Book"]).
  { split; [discriminate|]. split; [repeat constructor|].
    apply (bool_decide_unpack _). vm_compute. exact I. }
  assert (Hb : body_ok 1 [["Genesis"]]).
  { repeat constructor. }
  split; [|split; [|split]].
  - exact (proj2 (proj1 (create_download_content_formats empty_world (VStr "a") "JSON")
                    eq_refl) "a" eq_refl).
  - apply (proj2 (proj1 (proj2 (create_download_content_formats
                                  {| heap := [ODict [("Book", VStr "Genesis")];
                                              OList [VRef 0]];
                                     requests := [] |} (VRef 1) "Tsv"))
                    eq_refl eq_refl)
             [] ["Book"] [["Genesis"]] [Pandas.KText] Hh Hb);
      [discriminate | reflexivity | reflexivity | reflexivity].
  - apply (proj2 (proj2 (create_download_content_formats
                           {| heap := [OList [VInt 1; VStr "a"]]; requests := [] |}
                           (VRef 0) "XML"))); reflexivity.
  - apply (proj2 (proj2 (create_download_content_formats empty_world (VStr "a") "Tsv")));
      reflexivity.
Defined.
